(** * DigiReceipt (DigiAndQuote.py): record store, invoice numbering and
    document assembly

    A shallow embedding of the parts of [DigiAndQuote.py] that touch the
    SQLite store and the totals of a document:

    - the store functions [log_invoice], [get_invoices_from_db],
      [get_last_invoice_no_from_db] and [get_full_invoice_data];
    - the item loop of the form (the running [subtotal]), the validation of
      the items and the generation block of [app].

    Python values are modelled as the program has them: [str] as [string]
    (ASCII text), [int] as [Z], [float] as the binary64 numbers of
    [PrimFloat], a dict with a fixed set of keys as a record, a key that may
    be absent as an [option] field. The [json] module and the clock are
    outside the program: they appear as an interface ([Json]) and as inputs
    ([clock]). PDF, QR and CSV rendering never touch the store and are left
    out. *)

From Stdlib Require Import ZArith List String Ascii Bool Lia Floats.
From Ceres Require Import Ceres.
From Stdlib Require Import Sorted.
Import ListNotations.
Local Open Scope string_scope.
Local Open Scope Z_scope.

(* ===================================================================== *)
(** * Python values *)
(* ===================================================================== *)

Module Py.

(** A Python number: an [int] or a [float]. *)
Inductive num : Type :=
| Int (z : Z)
| Float (f : float).

(** [float(z)]: the nearest binary64 number, ties to even. (Python raises
    OverflowError beyond the binary64 range; the integers of this program
    come from number_input widgets, far below it.) *)
Definition float_of_int (z : Z) : float :=
  SF2Prim (SpecFloat.binary_normalize FloatOps.prec FloatOps.emax z 0 false).

Definition to_float (x : num) : float :=
  match x with
  | Int z => float_of_int z
  | Float f => f
  end.

(** [x + y], [x - y], [x * y]: integer arithmetic on two ints, float
    arithmetic as soon as one operand is a float. *)
Definition add (x y : num) : num :=
  match x, y with
  | Int a, Int b => Int (a + b)
  | _, _ => Float (PrimFloat.add (to_float x) (to_float y))
  end.

Definition sub (x y : num) : num :=
  match x, y with
  | Int a, Int b => Int (a - b)
  | _, _ => Float (PrimFloat.sub (to_float x) (to_float y))
  end.

Definition mul (x y : num) : num :=
  match x, y with
  | Int a, Int b => Int (a * b)
  | _, _ => Float (PrimFloat.mul (to_float x) (to_float y))
  end.

(** [sum(xs)]: the builtin, a left fold of [+] from the int [0]. *)
Definition sum (xs : list num) : num := fold_left add xs (Int 0).

(** Truth value of a [str]: every string but the empty one. *)
Definition truthy (s : string) : bool :=
  match s with
  | EmptyString => false
  | String _ _ => true
  end.

(** ** [int(s)] on text *)

(** The ASCII whitespace [int] skips around the literal. *)
Definition is_space (c : ascii) : bool :=
  let n := N_of_ascii c in
  ((9 <=? n) && (n <=? 13) || (n =? 32))%N.

Definition digit_of (c : ascii) : option Z :=
  let n := N_of_ascii c in
  if ((48 <=? n) && (n <=? 57))%N then Some (Z.of_N n - 48) else None.

Fixpoint lstrip (s : string) : string :=
  match s with
  | EmptyString => EmptyString
  | String c s' => if is_space c then lstrip s' else s
  end.

Fixpoint rstrip (s : string) : string :=
  match s with
  | EmptyString => EmptyString
  | String c s' =>
      match rstrip s' with
      | EmptyString => if is_space c then EmptyString else String c EmptyString
      | r => String c r
      end
  end.

(** The digits of a decimal literal, read left to right. One underscore may
    stand between two digits; [after_digit] tells whether the character
    just read was a digit, so that the literal neither starts nor ends with
    an underscore and never has two in a row. *)
Fixpoint int_digits (s : string) (acc : Z) (after_digit : bool) : option Z :=
  match s with
  | EmptyString => if after_digit then Some acc else None
  | String c s' =>
      match digit_of c with
      | Some d => int_digits s' (10 * acc + d) true
      | None =>
          if Ascii.eqb c "_" && after_digit then int_digits s' acc false
          else None
      end
  end.

(** [int(s)] for a [str]: [Some n] is the value, [None] is ValueError. *)
Definition int (s : string) : option Z :=
  match lstrip (rstrip s) with
  | String "-" s' => option_map Z.opp (int_digits s' 0 false)
  | String "+" s' => int_digits s' 0 false
  | s' => int_digits s' 0 false
  end.

(** ** [f"{n:04d}"] *)

Definition digit_char (d : Z) : ascii := ascii_of_N (Z.to_N (48 + d)).

(** Decimal digits of [n >= 0], most significant first, in front of [acc].
    [fuel] bounds the number of digits. *)
Fixpoint digits_from (fuel : nat) (n : Z) (acc : string) : string :=
  match fuel with
  | O => acc
  | S fuel' =>
      let acc' := String (digit_char (n mod 10)) acc in
      if n <? 10 then acc' else digits_from fuel' (n / 10) acc'
  end.

(** [str(n)] for [n >= 0]. *)
Definition digits (n : Z) : string :=
  digits_from (S (Z.to_nat (Z.log2 n))) n EmptyString.

Fixpoint zeros (k : nat) (s : string) : string :=
  match k with
  | O => s
  | S k' => String "0" (zeros k' s)
  end.

(** Zero fill on the left up to [width] characters. *)
Definition zfill (width : nat) (s : string) : string :=
  zeros (width - String.length s) s.

(** The format [04d]: minimum width 4, filled with zeros after the sign. *)
Definition format_04d (n : Z) : string :=
  if n <? 0 then String "-" (zfill 3 (digits (- n)))
  else zfill 4 (digits n).

End Py.

(* ===================================================================== *)
(** * Documents *)
(* ===================================================================== *)

(** [st.session_state["invoice_data"]]: a dict with the keys below. The
    keys written at generation time ([invoice_info], [subtotal], [discount],
    [grand_total]) and [line_total] of an item are absent from a fresh
    draft. *)

Module Vendor.
Record t : Type := { name : string; address : string; phone : string; ntn : string }.
End Vendor.

Module Client.
Record t : Type :=
  { name : string; address : string; phone : string; ntn : string; notes : string }.
End Client.

Module Item.
Record t : Type :=
  { name : string; quantity : Z; price : float; line_total : option Py.num }.

(** The four assignments to one item dict in the item loop. *)
Definition set_name (v : string) (it : t) : t :=
  {| name := v; quantity := quantity it; price := price it; line_total := line_total it |}.
Definition set_quantity (v : Z) (it : t) : t :=
  {| name := name it; quantity := v; price := price it; line_total := line_total it |}.
Definition set_price (v : float) (it : t) : t :=
  {| name := name it; quantity := quantity it; price := v; line_total := line_total it |}.
Definition set_line_total (v : Py.num) (it : t) : t :=
  {| name := name it; quantity := quantity it; price := price it; line_total := Some v |}.
End Item.

Module Info.
Record t : Type := { invoice_no : string; date : string; timestamp : string }.
End Info.

Module Doc.
Record t : Type :=
  { vendor : Vendor.t;
    client : Client.t;
    items : list Item.t;
    doc_type : string;
    invoice_info : option Info.t;
    subtotal : option Py.num;
    discount : option float;
    grand_total : option Py.num }.

Definition set_doc_type (v : string) (d : t) : t :=
  {| vendor := vendor d; client := client d; items := items d; doc_type := v;
     invoice_info := invoice_info d; subtotal := subtotal d;
     discount := discount d; grand_total := grand_total d |}.
Definition set_vendor (v : Vendor.t) (d : t) : t :=
  {| vendor := v; client := client d; items := items d; doc_type := doc_type d;
     invoice_info := invoice_info d; subtotal := subtotal d;
     discount := discount d; grand_total := grand_total d |}.
Definition set_client (v : Client.t) (d : t) : t :=
  {| vendor := vendor d; client := v; items := items d; doc_type := doc_type d;
     invoice_info := invoice_info d; subtotal := subtotal d;
     discount := discount d; grand_total := grand_total d |}.
Definition set_items (v : list Item.t) (d : t) : t :=
  {| vendor := vendor d; client := client d; items := v; doc_type := doc_type d;
     invoice_info := invoice_info d; subtotal := subtotal d;
     discount := discount d; grand_total := grand_total d |}.
Definition set_invoice_info (v : Info.t) (d : t) : t :=
  {| vendor := vendor d; client := client d; items := items d; doc_type := doc_type d;
     invoice_info := Some v; subtotal := subtotal d;
     discount := discount d; grand_total := grand_total d |}.
Definition set_subtotal (v : Py.num) (d : t) : t :=
  {| vendor := vendor d; client := client d; items := items d; doc_type := doc_type d;
     invoice_info := invoice_info d; subtotal := Some v;
     discount := discount d; grand_total := grand_total d |}.
Definition set_discount (v : float) (d : t) : t :=
  {| vendor := vendor d; client := client d; items := items d; doc_type := doc_type d;
     invoice_info := invoice_info d; subtotal := subtotal d;
     discount := Some v; grand_total := grand_total d |}.
Definition set_grand_total (v : Py.num) (d : t) : t :=
  {| vendor := vendor d; client := client d; items := items d; doc_type := doc_type d;
     invoice_info := invoice_info d; subtotal := subtotal d;
     discount := discount d; grand_total := Some v |}.

(** The draft a new session starts from. *)
Definition blank : t :=
  {| vendor := {| Vendor.name := ""; Vendor.address := ""; Vendor.phone := ""; Vendor.ntn := "" |};
     client := {| Client.name := ""; Client.address := ""; Client.phone := "";
                  Client.ntn := ""; Client.notes := "" |};
     items := [ {| Item.name := ""; Item.quantity := 1; Item.price := 0%float;
                   Item.line_total := None |} ];
     doc_type := "invoice";
     invoice_info := None; subtotal := None; discount := None; grand_total := None |}.
End Doc.

(** The two functions of the [json] module the program calls, on documents.
    [json_loads s = None] stands for a text that [json.loads] rejects
    (JSONDecodeError) or that is no document. *)
Class Json : Type :=
  { json_dumps : Doc.t -> string;
    json_loads : string -> option Doc.t }.

(** A call that returns or raises. *)
Inductive exn : Type := JSONDecodeError.

Inductive fallible (A : Type) : Type :=
| Returns (a : A)
| Raises (e : exn).
Arguments Returns {A} a.
Arguments Raises {A} e.

(* ===================================================================== *)
(** * The SQLite store *)
(* ===================================================================== *)

(** A row of [invoices] and of [invoices_full], columns in the order of the
    CREATE TABLE statements. [total] has type REAL: a number is kept as a
    float. *)
Record invoices_row : Type :=
  { inv_id : Z;
    inv_timestamp : string;
    inv_vendor : string;
    inv_invoice_no : string;
    inv_total : float;
    inv_user_id : string }.

Record invoices_full_row : Type :=
  { full_id : Z;
    full_timestamp : string;
    full_invoice_no : string;
    full_invoice_json : string;
    full_user_id : string }.

(** The database file: each table is the list of its rows in scan order.
    (The table [clients] is created by [init_db] and never read or
    written.) *)
Record database : Type :=
  { invoices : list invoices_row;
    invoices_full : list invoices_full_row }.

Definition empty_db : database := {| invoices := []; invoices_full := [] |}.

(** [init_db]: CREATE TABLE IF NOT EXISTS. A missing file gets empty tables,
    an existing one keeps its rows. *)
Definition init_db (file : option database) : database :=
  match file with
  | None => empty_db
  | Some db => db
  end.

(** A connection: the committed file and the view of the open transaction.
    [execute] of an INSERT changes the view only, [commit] writes it, and
    [close] leaves what was committed. *)
Record connection : Type :=
  { committed : database;
    pending : database }.

Definition get_conn (db : database) : connection :=
  {| committed := db; pending := db |}.

Definition commit (conn : connection) : connection :=
  {| committed := pending conn; pending := pending conn |}.

Definition close (conn : connection) : database := committed conn.

(** INTEGER PRIMARY KEY AUTOINCREMENT: one more than the largest id. (No
    statement of the program deletes a row, so the largest id ever used is
    the largest id present.) *)
Definition max_id {A : Type} (id : A -> Z) (rows : list A) : Z :=
  fold_left (fun m r => Z.max m (id r)) rows 0.

Definition next_id {A : Type} (id : A -> Z) (rows : list A) : Z :=
  max_id id rows + 1.

(** INSERT INTO invoices (timestamp, vendor, invoice_no, total, user_id) *)
Definition insert_invoices (timestamp vendor invoice_no : string) (total : Py.num)
  (user_id : string) (conn : connection) : connection :=
  let db := pending conn in
  let row := {| inv_id := next_id inv_id (invoices db);
                inv_timestamp := timestamp;
                inv_vendor := vendor;
                inv_invoice_no := invoice_no;
                inv_total := Py.to_float total;
                inv_user_id := user_id |} in
  {| committed := committed conn;
     pending := {| invoices := invoices db ++ [row];
                   invoices_full := invoices_full db |} |}.

(** INSERT INTO INVOICES_FULL (timestamp, invoice_no, invoice_json, user_id) *)
Definition insert_invoices_full (timestamp invoice_no invoice_json user_id : string)
  (conn : connection) : connection :=
  let db := pending conn in
  let row := {| full_id := next_id full_id (invoices_full db);
                full_timestamp := timestamp;
                full_invoice_no := invoice_no;
                full_invoice_json := invoice_json;
                full_user_id := user_id |} in
  {| committed := committed conn;
     pending := {| invoices := invoices db;
                   invoices_full := invoices_full db ++ [row] |} |}.

(** ORDER BY id DESC LIMIT 1: the row with the largest id. *)
Definition order_by_id_desc_limit_1 (rows : list invoices_row) : option invoices_row :=
  fold_left
    (fun best r =>
       match best with
       | None => Some r
       | Some b => if inv_id b <? inv_id r then Some r else Some b
       end)
    rows None.

Section Store.
Context {json : Json}.

Definition log_invoice (timestamp vendor invoice_no : string) (total : Py.num)
  (invoice_json : Doc.t) (user_id : string) (db : database) : database :=
  let conn := get_conn db in
  let conn := insert_invoices timestamp vendor invoice_no total user_id conn in
  let conn := insert_invoices_full timestamp invoice_no (json_dumps invoice_json)
                user_id conn in
  let conn := commit conn in
  close conn.

(** SELECT * FROM invoices WHERE user_id = ? *)
Definition get_invoices_from_db (db : database) (user_id : string) : list invoices_row :=
  filter (fun r => String.eqb (inv_user_id r) user_id) (invoices (pending (get_conn db))).

Definition get_last_invoice_no_from_db (db : database) : Z :=
  let result := order_by_id_desc_limit_1 (invoices (pending (get_conn db))) in
  match result with
  | Some r =>
      match Py.int (inv_invoice_no r) with
      | Some n => n
      | None => 0
      end
  | None => 0
  end.

(** SELECT invoice_json FROM invoices_full WHERE invoice_no = ? AND
    user_id = ?, then [fetchone]: the first matching row of the scan. *)
Definition get_full_invoice_data (db : database) (invoice_no user_id : string)
  : fallible (option Doc.t) :=
  let result :=
    find (fun r => String.eqb (full_invoice_no r) invoice_no
                   && String.eqb (full_user_id r) user_id)
         (invoices_full (pending (get_conn db))) in
  match result with
  | Some r =>
      match json_loads (full_invoice_json r) with
      | Some d => Returns (Some d)
      | None => Raises JSONDecodeError
      end
  | None => Returns None
  end.

End Store.

(* ===================================================================== *)
(** * The form and the generation block of [app] *)
(* ===================================================================== *)

(** What the widgets of one script run return. Item widgets are keyed by
    the index of the item ([item_name_i], [item_quantity_i],
    [item_price_i]); the client inputs exist only while
    [show_client_details] is set. *)
Record form : Type :=
  { w_doc_type : string;
    w_vendor : Vendor.t;
    w_client : option Client.t;
    w_item_name : nat -> string;
    w_item_quantity : nat -> Z;
    w_item_price : nat -> float;
    w_discount : float }.

(** [datetime.now(timezone.utc).isoformat()] and
    [datetime.now().strftime("%Y-%m-%d")]. *)
Record clock : Type :=
  { utc_isoformat : string;
    today : string }.

Record session_state : Type :=
  { ss_user_id : string;
    ss_invoice_data : Doc.t }.

Definition set_invoice_data (d : Doc.t) (ss : session_state) : session_state :=
  {| ss_user_id := ss_user_id ss; ss_invoice_data := d |}.

(** The loop over the items of the draft. Each round writes the three widget
    values into the item dict, computes [line_total] from the values just
    written ([item] is the very dict the assignments go to), stores it in
    the dict and adds it to [subtotal]. *)
Fixpoint item_loop (w : form) (i : nat) (items : list Item.t) (subtotal : Py.num)
  : list Item.t * Py.num :=
  match items with
  | [] => ([], subtotal)
  | item :: rest =>
      let item := Item.set_name (w_item_name w i) item in
      let item := Item.set_quantity (w_item_quantity w i) item in
      let item := Item.set_price (w_item_price w i) item in
      let line_total := Py.mul (Py.Int (Item.quantity item)) (Py.Float (Item.price item)) in
      let item := Item.set_line_total line_total item in
      let subtotal := Py.add subtotal line_total in
      let (rest, subtotal) := item_loop w (S i) rest subtotal in
      (item :: rest, subtotal)
  end.

(** The form: document type, vendor and client inputs, the item loop from
    [subtotal = 0], the discount input. Returns the draft as the form
    leaves it, [subtotal] and [discount_amount]. *)
Definition app_form (w : form) (d : Doc.t) : Doc.t * Py.num * float :=
  let d := Doc.set_doc_type (w_doc_type w) d in
  let d := Doc.set_vendor (w_vendor w) d in
  let d := match w_client w with
           | Some c => Doc.set_client c d
           | None => d
           end in
  let (items, subtotal) := item_loop w 0 (Doc.items d) (Py.Int 0) in
  let d := Doc.set_items items d in
  (d, subtotal, w_discount w).

(** [item.get("name") and (item.get("quantity", 0) <= 0 or
    item.get("price", 0) <= 0)] *)
Definition incomplete_item (item : Item.t) : bool :=
  Py.truthy (Item.name item)
  && ((Item.quantity item <=? 0) || PrimFloat.leb (Item.price item) 0%float).

(** The first loop of the generation block: stops at the first incomplete
    item. *)
Definition incomplete_item_exists (items : list Item.t) : bool :=
  existsb incomplete_item items.

(** [item.get("name") and item.get("quantity", 0) > 0 and
    item.get("price", 0) > 0] *)
Definition valid_item (item : Item.t) : bool :=
  Py.truthy (Item.name item)
  && (0 <? Item.quantity item)
  && PrimFloat.ltb 0%float (Item.price item).

(** [any(... for item in items)] *)
Definition is_valid_items (items : list Item.t) : bool :=
  existsb valid_item items.

(** How a run with the generate button pressed ends. *)
Inductive generation : Type :=
| UserIdMissing             (** no user id: [st.stop()] before the form *)
| ItemValidationWarning     (** an incomplete item: warning, [st.stop()] *)
| ValidationWarning         (** no valid item: warning *)
| Generated (invoice_no : string).

Record run : Type :=
  { run_session : session_state;
    run_db : database;
    run_outcome : generation }.

Section App.
Context {json : Json}.

(** The invoice number of the next document: [f"{last_invoice_no + 1:04d}"]. *)
Definition next_invoice_no (db : database) : string :=
  let last_invoice_no := get_last_invoice_no_from_db db in
  Py.format_04d (last_invoice_no + 1).

(** One run of the script with the generate button pressed (the add and
    remove buttons of the form are then not pressed). What the block does
    after [log_invoice] (it reads the document back for the QR code, draws
    the PDF, builds the CSV and keeps them in [last_invoice_info] for the
    download buttons) writes nothing to the store and is left out, as is
    the removal of [last_invoice_info] in the two warning branches. *)
Definition app (w : form) (now : clock) (ss : session_state) (db : database) : run :=
  if negb (Py.truthy (ss_user_id ss)) then
    {| run_session := ss; run_db := db; run_outcome := UserIdMissing |}
  else
    let '(invoice_data, subtotal, discount_amount) := app_form w (ss_invoice_data ss) in
    let ss := set_invoice_data invoice_data ss in
    if incomplete_item_exists (Doc.items invoice_data) then
      {| run_session := ss; run_db := db; run_outcome := ItemValidationWarning |}
    else
      let grand_total := Py.sub subtotal (Py.Float discount_amount) in
      if negb (is_valid_items (Doc.items invoice_data)) then
        {| run_session := ss; run_db := db; run_outcome := ValidationWarning |}
      else
        let invoice_no := next_invoice_no db in
        let timestamp := utc_isoformat now in
        let invoice_data :=
          Doc.set_invoice_info
            {| Info.invoice_no := invoice_no;
               Info.date := today now;
               Info.timestamp := timestamp |} invoice_data in
        let invoice_data := Doc.set_subtotal subtotal invoice_data in
        let invoice_data := Doc.set_discount discount_amount invoice_data in
        let invoice_data := Doc.set_grand_total grand_total invoice_data in
        let db := log_invoice timestamp (Vendor.name (Doc.vendor invoice_data))
                    invoice_no grand_total invoice_data (ss_user_id ss) db in
        {| run_session := set_invoice_data invoice_data ss;
           run_db := db;
           run_outcome := Generated invoice_no |}.


(** ** The requests the program sends to the store *)




(** ** States of the store *)

(** Stores filled through [log_invoice], with any arguments. *)
Inductive logged : database -> Prop :=
| logged_empty : logged empty_db
| logged_log db timestamp vendor invoice_no total invoice_json user_id :
    logged db ->
    logged (log_invoice timestamp vendor invoice_no total invoice_json user_id db).

(** Stores filled by document generation only. *)
Inductive generated : database -> Prop :=
| generated_empty : generated empty_db
| generated_app db w now ss invoice_no :
    generated db ->
    run_outcome (app w now ss db) = Generated invoice_no ->
    generated (run_db (app w now ss db)).

End App.

(* ===================================================================== *)
(** * A text codec for closed examples *)
(* ===================================================================== *)

(** The theorems below hold for every [Json]. Closed examples need one to
    compute with: documents are written as S-expressions and read back by
    the parser of the Ceres library. Floats travel as their sign, mantissa
    and exponent. *)
Module SexpCodec.

#[local] Instance Serialize_float : Serialize float :=
  fun f =>
    match Prim2SF f with
    | S754_zero s => [Atom "zero"; to_sexp s]
    | S754_infinity s => [Atom "inf"; to_sexp s]
    | S754_nan => Atom "nan"
    | S754_finite s m e => [Atom "fin"; to_sexp s; to_sexp (Zpos m); to_sexp e]
    end%sexp.

#[local] Instance Deserialize_float : Deserialize float :=
  Deser.match_con "float"
    [("nan", SF2Prim S754_nan)]
    [("zero", Deser.con1_ (fun s : bool => SF2Prim (S754_zero s)));
     ("inf", Deser.con1_ (fun s : bool => SF2Prim (S754_infinity s)));
     ("fin", Deser.con3_ (fun (s : bool) (m e : Z) => SF2Prim (S754_finite s (Z.to_pos m) e)))].

#[local] Instance Serialize_num : Serialize Py.num :=
  fun x =>
    match x with
    | Py.Int z => [Atom "int"; to_sexp z]
    | Py.Float f => [Atom "float"; to_sexp f]
    end%sexp.

#[local] Instance Deserialize_num : Deserialize Py.num :=
  Deser.match_con "num" []
    [("int", Deser.con1_ Py.Int); ("float", Deser.con1_ Py.Float)].

#[local] Instance Serialize_vendor : Serialize Vendor.t :=
  fun v => [Atom "vendor"; to_sexp (Vendor.name v); to_sexp (Vendor.address v);
            to_sexp (Vendor.phone v); to_sexp (Vendor.ntn v)]%sexp.

#[local] Instance Deserialize_vendor : Deserialize Vendor.t :=
  Deser.match_con "vendor" [] [("vendor", Deser.con4_ Vendor.Build_t)].

#[local] Instance Serialize_client : Serialize Client.t :=
  fun c => [Atom "client"; to_sexp (Client.name c); to_sexp (Client.address c);
            to_sexp (Client.phone c); to_sexp (Client.ntn c);
            to_sexp (Client.notes c)]%sexp.

#[local] Instance Deserialize_client : Deserialize Client.t :=
  Deser.match_con "client" [] [("client", Deser.con5_ Client.Build_t)].

#[local] Instance Serialize_item : Serialize Item.t :=
  fun it => [Atom "item"; to_sexp (Item.name it); to_sexp (Item.quantity it);
             to_sexp (Item.price it); to_sexp (Item.line_total it)]%sexp.

#[local] Instance Deserialize_item : Deserialize Item.t :=
  Deser.match_con "item" [] [("item", Deser.con4_ Item.Build_t)].

#[local] Instance Serialize_info : Serialize Info.t :=
  fun i => [Atom "invoice_info"; to_sexp (Info.invoice_no i); to_sexp (Info.date i);
            to_sexp (Info.timestamp i)]%sexp.

#[local] Instance Deserialize_info : Deserialize Info.t :=
  Deser.match_con "invoice_info" [] [("invoice_info", Deser.con3_ Info.Build_t)].

(** A document is written in two halves: the inputs, then the keys added
    at generation time. *)
Definition totals : Type :=
  (option Info.t * option Py.num * option float * option Py.num)%type.

#[local] Instance Serialize_doc : Serialize Doc.t :=
  fun d => [Atom "doc"; to_sexp (Doc.vendor d); to_sexp (Doc.client d);
            to_sexp (Doc.items d); to_sexp (Doc.doc_type d);
            to_sexp (Doc.invoice_info d, Doc.subtotal d, Doc.discount d,
                     Doc.grand_total d)]%sexp.

#[local] Instance Deserialize_doc : Deserialize Doc.t :=
  Deser.match_con "doc" []
    [("doc", Deser.con5_
               (fun v c its ty (t : totals) =>
                  let '(info, sub, disc, total) := t in
                  Doc.Build_t v c its ty info sub disc total))].

Definition dumps (d : Doc.t) : string := to_string d.

Definition loads (s : string) : option Doc.t :=
  match from_string s with
  | inr d => Some d
  | inl _ => None
  end.

Definition codec : Json := {| json_dumps := dumps; json_loads := loads |}.

End SexpCodec.

(* ===================================================================== *)
(** * The specification's notions *)
(* ===================================================================== *)


(** Following the specification (Document Assembler): "at least one item has
    non-empty name, quantity > 0, and price > 0". *)
Definition has_valid_item (items : list Item.t) : Prop :=
  exists item, In item items
    /\ Item.name item <> ""
    /\ 0 < Item.quantity item
    /\ PrimFloat.ltb 0%float (Item.price item) = true.

(** The guard of the generation block: no item with a name has a quantity
    or a price that is zero or less. *)
Definition no_incomplete_item (items : list Item.t) : Prop :=
  forall item, In item items -> Item.name item <> "" ->
    0 < Item.quantity item /\ PrimFloat.leb (Item.price item) 0%float = false.

(** Following the data model: the line total of an item is quantity times
    unit price. *)
Definition quantity_times_price (item : Item.t) : Py.num :=
  Py.mul (Py.Int (Item.quantity item)) (Py.Float (Item.price item)).

(** The items as the form leaves them, which the generation block checks. *)
Definition form_items (w : form) (d : Doc.t) : list Item.t :=
  Doc.items (fst (fst (app_form w d))).

(** Text without whitespace. *)
Fixpoint plain (s : string) : Prop :=
  match s with
  | EmptyString => True
  | String c s' => Py.is_space c = false /\ plain s'
  end.

Section Invariant.
Context {json : Json}.

(** The [k]-th summary row and the [k]-th full row of a store filled by
    generation: same id, number, timestamp and owner; the stored text is the
    document whose [grand_total] the summary row records and whose
    [invoice_info] carries the number. *)
Definition row_pair (k : Z) (r : invoices_row) (f : invoices_full_row) : Prop :=
  inv_id r = k /\ full_id f = k
  /\ inv_invoice_no r = Py.format_04d k /\ full_invoice_no f = Py.format_04d k
  /\ full_timestamp f = inv_timestamp r
  /\ full_user_id f = inv_user_id r
  /\ exists d info,
       full_invoice_json f = json_dumps d
       /\ Doc.grand_total d = Some (Py.Float (inv_total r))
       /\ Doc.invoice_info d = Some info
       /\ Info.invoice_no info = Py.format_04d k
       /\ inv_vendor r = Vendor.name (Doc.vendor d).

Inductive numbered : list invoices_row -> list invoices_full_row -> Prop :=
| numbered_nil : numbered [] []
| numbered_snoc rs fs r f :
    numbered rs fs ->
    row_pair (Z.of_nat (List.length rs) + 1) r f ->
    numbered (rs ++ [r]) (fs ++ [f]).

End Invariant.

Local Open Scope list_scope.

(* ===================================================================== *)
(** * Concrete runs for the closed examples *)
(* ===================================================================== *)

Module Ex.

Definition noon : clock :=
  {| utc_isoformat := "2024-05-01T12:00:00+00:00"; today := "2024-05-01" |}.

Definition evening : clock :=
  {| utc_isoformat := "2024-05-01T18:30:00+00:00"; today := "2024-05-01" |}.

Definition shop : Vendor.t :=
  {| Vendor.name := "Corner Shop"; Vendor.address := "1 Main St";
     Vendor.phone := "555-0100"; Vendor.ntn := "" |}.

(** A draft with two item rows, as after one click on the add button. *)
Definition two_rows : Doc.t :=
  Doc.set_items (Doc.items Doc.blank ++ Doc.items Doc.blank) Doc.blank.

Definition session (user_id : string) (d : Doc.t) : session_state :=
  {| ss_user_id := user_id; ss_invoice_data := d |}.

(** Two items: 2 pens at 10.0 and 1 ink at [ink_price], with a discount. *)
Definition pens_and_ink (ink_price discount : float) : form :=
  {| w_doc_type := "invoice";
     w_vendor := shop;
     w_client := None;
     w_item_name := fun i => match i with O => "Pen" | _ => "Ink" end;
     w_item_quantity := fun i => match i with O => 2 | _ => 1 end;
     w_item_price := fun i => match i with O => 10%float | _ => ink_price end;
     w_discount := discount |}.

(** The example of the specification: quantities 2 and 1, prices 10.0 and
    5.0, discount 3.0. *)
Definition order : form := pens_and_ink 5%float 3%float.

(** The second row has a name and no price yet. *)
Definition unpriced_ink : form := pens_and_ink 0%float 0%float.

(** Rows without names. *)
Definition unnamed : form :=
  {| w_doc_type := "invoice";
     w_vendor := shop;
     w_client := None;
     w_item_name := fun _ => "";
     w_item_quantity := fun _ => 1;
     w_item_price := fun _ => 0%float;
     w_discount := 0%float |}.

(** The first document of shop-1 on a new store. *)
Definition run1 : run :=
  app (json := SexpCodec.codec) order noon (session "shop-1" two_rows) empty_db.
Definition db1 : database := run_db run1.
Definition doc1 : Doc.t := ss_invoice_data (run_session run1).

(** The same user loads document 0001 and generates again. *)
Definition run2 : run :=
  app (json := SexpCodec.codec) order evening (session "shop-1" doc1) db1.
Definition db2 : database := run_db run2.
Definition doc2 : Doc.t := ss_invoice_data (run_session run2).

(** Stores written through [log_invoice] directly. *)
Definition db_0007 : database :=
  log_invoice (json := SexpCodec.codec) (utc_isoformat noon) "Corner Shop" "0007"
    (Py.Float 22%float) doc1 "shop-1" empty_db.

Definition db_0007_0003 : database :=
  log_invoice (json := SexpCodec.codec) (utc_isoformat evening) "Corner Shop" "0003"
    (Py.Float 22%float) doc1 "shop-2" db_0007.


(** Two documents of one owner stored under one number: a second session
    of shop-1 assembled its document while the store was still empty, and
    wrote it after the first. *)
Definition run1b : run :=
  app (json := SexpCodec.codec) (pens_and_ink 5%float 0%float) evening
    (session "shop-1" two_rows) empty_db.
Definition doc1b : Doc.t := ss_invoice_data (run_session run1b).

Definition db_twice : database :=
  log_invoice (json := SexpCodec.codec) (utc_isoformat evening) "Corner Shop" "0001"
    (Py.Float 25%float) doc1b "shop-1" db1.



End Ex.

(* ===================================================================== *)
(** * The whole script *)
(* ===================================================================== *)

(** ** The add and remove buttons of the form *)

(** The row the add button appends. *)
Definition new_item : Item.t :=
  {| Item.name := ""; Item.quantity := 1; Item.price := 0%float; Item.line_total := None |}.

(** [add_item_button] appends a row. The remove button is drawn only while
    the list has more than one row, and pops the last one. *)
Definition item_buttons (add_item_button remove_item_button : bool)
  (items : list Item.t) : list Item.t :=
  let items := if add_item_button then items ++ [new_item] else items in
  if (1 <? List.length items)%nat then
    if remove_item_button then removelast items else items
  else items.

(** The form with its two buttons: [app_form] with the buttons in front of
    the item loop. *)
Definition app_form_buttons (add_item_button remove_item_button : bool) (w : form)
  (d : Doc.t) : Doc.t * Py.num * float :=
  let d := Doc.set_doc_type (w_doc_type w) d in
  let d := Doc.set_vendor (w_vendor w) d in
  let d := match w_client w with
           | Some c => Doc.set_client c d
           | None => d
           end in
  let d := Doc.set_items (item_buttons add_item_button remove_item_button (Doc.items d)) d in
  let (items, subtotal) := item_loop w 0 (Doc.items d) (Py.Int 0) in
  let d := Doc.set_items items d in
  (d, subtotal, w_discount w).

(** ** Session state and the inputs of one run *)

(** The keys of [st.session_state] the script keeps between runs:
    [invoice_data] (absent in a new session), [loaded] (present once a
    document came in through the URL), [show_client_details] (absent counts
    as False) and [last_invoice_info], of which the invoice number names
    the downloads (the PDF and CSV bytes are outside the model). *)
Record browser_session : Type :=
  { bs_invoice_data : option Doc.t;
    bs_loaded : bool;
    bs_show_client_details : bool;
    bs_last_invoice_info : option string }.

Definition new_session : browser_session :=
  {| bs_invoice_data := None;
     bs_loaded := false;
     bs_show_client_details := false;
     bs_last_invoice_info := None |}.

(** What the browser sends with one run: the user id input, the
    [invoice_no] query parameter, the buttons and the widget values. *)
Record inputs : Type :=
  { in_user_id : string;
    in_query_invoice_no : option string;
    in_doc_type : string;
    in_client_button : bool;
    in_vendor : Vendor.t;
    in_client : Client.t;
    in_add_item : bool;
    in_remove_item : bool;
    in_item_name : nat -> string;
    in_item_quantity : nat -> Z;
    in_item_price : nat -> float;
    in_discount : float;
    in_generate : bool;
    in_load_invoice_no : string;
    in_load_button : bool;
    in_now : clock }.

(** The widgets of the form; the client inputs are drawn only while
    [show_client_details] is set. *)
Definition form_of (i : inputs) (show_client_details : bool) : form :=
  {| w_doc_type := in_doc_type i;
     w_vendor := in_vendor i;
     w_client := if show_client_details then Some (in_client i) else None;
     w_item_name := in_item_name i;
     w_item_quantity := in_item_quantity i;
     w_item_price := in_item_price i;
     w_discount := in_discount i |}.

(** How a run ends: [st.stop()], the end of the script, [st.rerun()] after
    a document was loaded, or an exception. *)
Inductive ending : Type :=
| Stopped
| Finished
| Rerun
| Crashed (e : exn).

(** A run leaves a session, a database, what the generation block showed
    (if the generate button was pressed and the block was reached) and the
    listing of past documents (if the end of the script was reached). *)
Record script_result : Type :=
  { sr_session : browser_session;
    sr_db : database;
    sr_ending : ending;
    sr_generation : option generation;
    sr_listing : option (list invoices_row) }.

Definition set_bs_invoice_data (d : Doc.t) (bs : browser_session) : browser_session :=
  {| bs_invoice_data := Some d;
     bs_loaded := bs_loaded bs;
     bs_show_client_details := bs_show_client_details bs;
     bs_last_invoice_info := bs_last_invoice_info bs |}.

Definition set_bs_loaded (bs : browser_session) : browser_session :=
  {| bs_invoice_data := bs_invoice_data bs;
     bs_loaded := true;
     bs_show_client_details := bs_show_client_details bs;
     bs_last_invoice_info := bs_last_invoice_info bs |}.

Definition set_bs_show_client_details (b : bool) (bs : browser_session) : browser_session :=
  {| bs_invoice_data := bs_invoice_data bs;
     bs_loaded := bs_loaded bs;
     bs_show_client_details := b;
     bs_last_invoice_info := bs_last_invoice_info bs |}.

Definition set_bs_last_invoice_info (v : option string) (bs : browser_session)
  : browser_session :=
  {| bs_invoice_data := bs_invoice_data bs;
     bs_loaded := bs_loaded bs;
     bs_show_client_details := bs_show_client_details bs;
     bs_last_invoice_info := v |}.

Section Script.
Context {json : Json}.

(** The query parameter: a document of this user comes in through the URL
    once per session. *)
Definition url_load (i : inputs) (bs : browser_session) (db : database)
  : fallible browser_session :=
  match in_query_invoice_no i with
  | Some invoice_no_to_load =>
      if negb (bs_loaded bs) then
        match get_full_invoice_data db invoice_no_to_load (in_user_id i) with
        | Returns (Some loaded_data) =>
            Returns (set_bs_loaded (set_bs_invoice_data loaded_data bs))
        | Returns None => Returns bs
        | Raises e => Raises e
        end
      else Returns bs
  | None => Returns bs
  end.

(** The generation block on what the form returned. *)
Definition generate_block (now : clock) (user_id : string)
  (formed : Doc.t * Py.num * float) (db : database) : Doc.t * database * generation :=
  let '(invoice_data, subtotal, discount_amount) := formed in
  if incomplete_item_exists (Doc.items invoice_data) then
    (invoice_data, db, ItemValidationWarning)
  else
    let grand_total := Py.sub subtotal (Py.Float discount_amount) in
    if negb (is_valid_items (Doc.items invoice_data)) then
      (invoice_data, db, ValidationWarning)
    else
      let invoice_no := next_invoice_no db in
      let timestamp := utc_isoformat now in
      let invoice_data :=
        Doc.set_invoice_info
          {| Info.invoice_no := invoice_no;
             Info.date := today now;
             Info.timestamp := timestamp |} invoice_data in
      let invoice_data := Doc.set_subtotal subtotal invoice_data in
      let invoice_data := Doc.set_discount discount_amount invoice_data in
      let invoice_data := Doc.set_grand_total grand_total invoice_data in
      let db := log_invoice timestamp (Vendor.name (Doc.vendor invoice_data))
                  invoice_no grand_total invoice_data user_id db in
      (invoice_data, db, Generated invoice_no).

(** The end of the script: the load button, then the listing. *)
Definition load_and_list (i : inputs) (bs : browser_session) (db : database)
  (shown : option generation) : script_result :=
  let listed :=
    {| sr_session := bs; sr_db := db; sr_ending := Finished; sr_generation := shown;
       sr_listing := Some (get_invoices_from_db db (in_user_id i)) |} in
  if in_load_button i && Py.truthy (in_load_invoice_no i) then
    match get_full_invoice_data db (in_load_invoice_no i) (in_user_id i) with
    | Returns (Some loaded_data) =>
        {| sr_session := set_bs_invoice_data loaded_data bs; sr_db := db;
           sr_ending := Rerun; sr_generation := shown; sr_listing := None |}
    | Returns None => listed
    | Raises e =>
        {| sr_session := bs; sr_db := db; sr_ending := Crashed e;
           sr_generation := shown; sr_listing := None |}
    end
  else listed.

(** One run of [app] from its first line to its last. *)
Definition script (i : inputs) (bs : browser_session) (db : database) : script_result :=
  let user_id := in_user_id i in
  if negb (Py.truthy user_id) then
    {| sr_session := bs; sr_db := db; sr_ending := Stopped;
       sr_generation := None; sr_listing := None |}
  else
    match url_load i bs db with
    | Raises e =>
        {| sr_session := bs; sr_db := db; sr_ending := Crashed e;
           sr_generation := None; sr_listing := None |}
    | Returns bs =>
        let invoice_data :=
          match bs_invoice_data bs with
          | Some d => d
          | None => Doc.blank
          end in
        let show := if in_client_button i then negb (bs_show_client_details bs)
                    else bs_show_client_details bs in
        let bs := set_bs_show_client_details show bs in
        let formed := app_form_buttons (in_add_item i) (in_remove_item i)
                        (form_of i show) invoice_data in
        if in_generate i then
          let '(invoice_data, db, shown) := generate_block (in_now i) user_id formed db in
          let bs := set_bs_invoice_data invoice_data bs in
          match shown with
          | Generated invoice_no =>
              match get_full_invoice_data db invoice_no user_id with
              | Raises e =>
                  {| sr_session := bs; sr_db := db; sr_ending := Crashed e;
                     sr_generation := Some shown; sr_listing := None |}
              | Returns _ =>
                  load_and_list i (set_bs_last_invoice_info (Some invoice_no) bs) db
                    (Some shown)
              end
          | ItemValidationWarning =>
              {| sr_session := set_bs_last_invoice_info None bs; sr_db := db;
                 sr_ending := Stopped; sr_generation := Some shown; sr_listing := None |}
          | _ => load_and_list i (set_bs_last_invoice_info None bs) db (Some shown)
          end
        else
          load_and_list i (set_bs_invoice_data (fst (fst formed)) bs) db None
    end.

(** Any number of runs, each with its own inputs, from a session and a
    database. A run that crashes leaves session and database as they are
    at that point, like any other. *)
Fixpoint runs (steps : list inputs) (bs : browser_session) (db : database)
  : browser_session * database :=
  match steps with
  | [] => (bs, db)
  | i :: steps' =>
      let r := script i bs db in
      runs steps' (sr_session r) (sr_db r)
  end.

End Script.

(* ===================================================================== *)
(** * The tables [init_db] creates and migrates *)
(* ===================================================================== *)

(** [init_db] as far as the shape of the tables goes: a table is the list
    of its column names, [None] a table that does not exist yet. Rows are
    untouched by every statement of [init_db]. (The two [st.info] messages
    are left out.) *)
Module Schema.

Definition invoices_columns : list string :=
  ["id"; "timestamp"; "vendor"; "invoice_no"; "total"; "user_id"].

Definition invoices_full_columns : list string :=
  ["id"; "timestamp"; "invoice_no"; "invoice_json"; "user_id"].

Definition clients_columns : list string :=
  ["id"; "name"; "address"; "phone"; "ntn"; "notes"; "created_at"].

Record t : Type :=
  { invoices_table : option (list string);
    invoices_full_table : option (list string);
    clients_table : option (list string) }.


(** CREATE TABLE IF NOT EXISTS: an existing table stays as it is, whatever
    its columns. *)
Definition create_table_if_not_exists (columns : list string)
  (table : option (list string)) : list string :=
  match table with
  | Some existing => existing
  | None => columns
  end.

(** SQLite compares column names without regard to ASCII case. *)
Definition lower (c : ascii) : ascii :=
  let n := N_of_ascii c in
  if ((65 <=? n) && (n <=? 90))%N then ascii_of_N (n + 32) else c.

Fixpoint lower_name (s : string) : string :=
  match s with
  | EmptyString => EmptyString
  | String c s' => String (lower c) (lower_name s')
  end.

Definition same_column (a b : string) : bool :=
  String.eqb (lower_name a) (lower_name b).

(** sqlite3.OperationalError: duplicate column name. *)
Inductive error : Type := OperationalError.

(** ALTER TABLE ... ADD COLUMN name TEXT *)
Definition add_column (name : string) (columns : list string) : option (list string) :=
  if existsb (same_column name) columns then None
  else Some (columns ++ [name]).

(** ['user_id' in columns], over the names PRAGMA table_info returns. *)
Definition has_user_id (columns : list string) : bool :=
  existsb (String.eqb "user_id") columns.

Definition tables (i f c : list string) : t :=
  {| invoices_table := Some i; invoices_full_table := Some f; clients_table := Some c |}.

(** The statements of [init_db] in order; each takes effect as it runs, so
    a failing ALTER TABLE leaves what was done before it. *)
Definition init_db (s : t) : t * option error :=
  let i := create_table_if_not_exists invoices_columns (invoices_table s) in
  let f := create_table_if_not_exists invoices_full_columns (invoices_full_table s) in
  let c := create_table_if_not_exists clients_columns (clients_table s) in
  match (if has_user_id i then Some i else add_column "user_id" i) with
  | None => (tables i f c, Some OperationalError)
  | Some i =>
      if has_user_id f then (tables i f c, None)
      else
        match add_column "user_id" f with
        | None => (tables i f c, Some OperationalError)
        | Some f =>
            match add_column "user_id" c with
            | None => (tables i f c, Some OperationalError)
            | Some c => (tables i f c, None)
            end
        end
  end.

End Schema.

(* ===================================================================== *)
(** * Notions for the properties of stores and sessions *)
(* ===================================================================== *)

(** A summary row and a full row written by one call of [log_invoice]. *)
Definition same_key (r : invoices_row) (f : invoices_full_row) : Prop :=
  inv_id r = full_id f
  /\ inv_invoice_no r = full_invoice_no f
  /\ inv_timestamp r = full_timestamp f
  /\ inv_user_id r = full_user_id f.

(** What the generation block guarantees of a document it stores: the items
    passed both checks, every item carries its line total, [subtotal] is a
    float and the sum of the line totals, [grand_total] is [subtotal] minus
    [discount], and [invoice_info] is there. *)
Definition well_formed (d : Doc.t) : Prop :=
  has_valid_item (Doc.items d)
  /\ no_incomplete_item (Doc.items d)
  /\ Forall (fun item => Item.line_total item = Some (quantity_times_price item))
       (Doc.items d)
  /\ exists (x discount : float) (info : Info.t),
       Py.sum (map quantity_times_price (Doc.items d)) = Py.Float x
       /\ Doc.subtotal d = Some (Py.Float x)
       /\ Doc.discount d = Some discount
       /\ Doc.grand_total d = Some (Py.Float (PrimFloat.sub x discount))
       /\ Doc.invoice_info d = Some info.

(** The summary row as a projection of the document: vendor name, invoice
    number, timestamp and total. *)
Definition summary_of (d : Doc.t) (r : invoices_row) : Prop :=
  inv_vendor r = Vendor.name (Doc.vendor d)
  /\ Doc.grand_total d = Some (Py.Float (inv_total r))
  /\ exists info,
       Doc.invoice_info d = Some info
       /\ Info.invoice_no info = inv_invoice_no r
       /\ Info.timestamp info = inv_timestamp r.

(** The draft of a session, if there is one, has at least one item row. *)
Definition has_item_row (bs : browser_session) : Prop :=
  forall d, bs_invoice_data bs = Some d -> Doc.items d <> [].

(* ===================================================================== *)
(** * Concrete sessions and tables for the closed examples *)
(* ===================================================================== *)

Module Ex2.

(** shop-1 fills in the order of [Ex.order] and presses a button. *)
Definition visit (generate : bool) (ink_price : float) : inputs :=
  {| in_user_id := "shop-1";
     in_query_invoice_no := None;
     in_doc_type := "invoice";
     in_client_button := false;
     in_vendor := Ex.shop;
     in_client := Doc.client Doc.blank;
     in_add_item := negb generate;
     in_remove_item := false;
     in_item_name := fun i => match i with O => "Pen" | _ => "Ink" end;
     in_item_quantity := fun i => match i with O => 2 | _ => 1 end;
     in_item_price := fun i => match i with O => 10%float | _ => ink_price end;
     in_discount := 3%float;
     in_generate := generate;
     in_load_invoice_no := "";
     in_load_button := false;
     in_now := Ex.noon |}.

(** A new session on an empty database: the add button, then generate. *)
Definition after_add : script_result :=
  script (json := SexpCodec.codec) (visit false 5%float) new_session empty_db.

Definition after_generate : script_result :=
  script (json := SexpCodec.codec) (visit true 5%float)
    (sr_session after_add) (sr_db after_add).

(** A row that stands for "no row" where a list is taken apart. *)
Definition no_full_row : invoices_full_row :=
  {| full_id := 0; full_timestamp := ""; full_invoice_no := "";
     full_invoice_json := ""; full_user_id := "" |}.

Definition no_row : invoices_row :=
  {| inv_id := 0; inv_timestamp := ""; inv_vendor := ""; inv_invoice_no := "";
     inv_total := 0%float; inv_user_id := "" |}.

(** The first rows of the store after two generated documents. *)
Definition full_row_1 : invoices_full_row := hd no_full_row (invoices_full Ex.db2).
Definition row_1 : invoices_row := hd no_row (invoices Ex.db2).

(** A database from before the owner id was introduced: the two invoice
    tables lack [user_id]. *)
Definition legacy : Schema.t :=
  {| Schema.invoices_table :=
       Some ["id"; "timestamp"; "vendor"; "invoice_no"; "total"];
     Schema.invoices_full_table :=
       Some ["id"; "timestamp"; "invoice_no"; "invoice_json"];
     Schema.clients_table := Some Schema.clients_columns |}.

End Ex2.

(* ===================================================================== *)
(** * Proofs *)
(* ===================================================================== *)

(** * Decimal text: [int] reads back what [04d] writes *)

Lemma digit_cases (d : Z) :
  0 <= d < 10 ->
  d = 0 \/ d = 1 \/ d = 2 \/ d = 3 \/ d = 4 \/ d = 5 \/ d = 6 \/ d = 7 \/ d = 8 \/ d = 9.
Proof. lia. Qed.

Ltac each_digit d H :=
  destruct (digit_cases d H) as [-> | [-> | [-> | [-> | [-> | [-> | [-> | [-> | [-> | ->]]]]]]]]].

Lemma digit_of_digit_char (d : Z) :
  0 <= d < 10 -> Py.digit_of (Py.digit_char d) = Some d.
Proof. intros H. each_digit d H; reflexivity. Qed.

Lemma is_space_digit_char (d : Z) :
  0 <= d < 10 -> Py.is_space (Py.digit_char d) = false.
Proof. intros H. each_digit d H; reflexivity. Qed.

Lemma int_digits_digit (d : Z) (s : string) (a : Z) (b : bool) :
  0 <= d < 10 ->
  Py.int_digits (String (Py.digit_char d) s) a b = Py.int_digits s (10 * a + d) true.
Proof. intros H. simpl. now rewrite digit_of_digit_char. Qed.

(** Reading the digits of [n] multiplies what was read before by a power
    of ten and adds [n]. *)
Lemma int_digits_digits_from (fuel : nat) :
  forall n acc, 0 <= n < 2 ^ Z.of_nat (S fuel) ->
  exists m, forall a b,
    Py.int_digits (Py.digits_from (S fuel) n acc) a b = Py.int_digits acc (a * m + n) true.
Proof.
  induction fuel as [|fuel IH]; intros n acc Hn.
  - exists 10. intros a b.
    change (2 ^ Z.of_nat 1) with 2 in Hn.
    cbn [Py.digits_from]. destruct (Z.ltb_spec n 10); [|lia].
    rewrite int_digits_digit by (apply Z.mod_pos_bound; lia).
    f_equal. rewrite Z.mod_small by lia. lia.
  - cbn [Py.digits_from]. destruct (Z.ltb_spec n 10) as [Hlt|Hge].
    + exists 10. intros a b.
      rewrite int_digits_digit by (apply Z.mod_pos_bound; lia).
      f_equal. rewrite Z.mod_small by lia. lia.
    + assert (Hdiv : 0 <= n / 10 < 2 ^ Z.of_nat (S fuel)).
      { split; [apply Z.div_pos; lia|].
        apply Z.div_lt_upper_bound; [lia|].
        rewrite (Nat2Z.inj_succ (S fuel)), Z.pow_succ_r in Hn by lia. lia. }
      destruct (IH (n / 10) (String (Py.digit_char (n mod 10)) acc) Hdiv) as [m Hm].
      exists (10 * m). intros a b.
      rewrite Hm.
      rewrite int_digits_digit by (apply Z.mod_pos_bound; lia).
      f_equal. pose proof (Z.div_mod n 10). lia.
Qed.

Lemma int_digits_digits (n : Z) :
  0 <= n -> exists m, forall a b, Py.int_digits (Py.digits n) a b = Some (a * m + n).
Proof.
  intros Hn. unfold Py.digits.
  destruct (int_digits_digits_from (Z.to_nat (Z.log2 n)) n EmptyString) as [m Hm].
  - split; [lia|]. rewrite Nat2Z.inj_succ, Z2Nat.id by apply Z.log2_nonneg.
    destruct (Z.eq_dec n 0) as [->|]; [reflexivity|].
    apply Z.log2_spec. lia.
  - exists m. intros a' b'. now rewrite Hm.
Qed.


Lemma rstrip_plain (s : string) : plain s -> Py.rstrip s = s.
Proof.
  induction s as [|c s IH]; [reflexivity|].
  intros [Hc Hs]. cbn [Py.rstrip]. rewrite (IH Hs), Hc. now destruct s.
Qed.

Lemma plain_digits_from (fuel : nat) :
  forall n acc, plain acc -> plain (Py.digits_from fuel n acc).
Proof.
  induction fuel as [|fuel IH]; intros n acc Hacc; [exact Hacc|].
  cbn [Py.digits_from].
  assert (Hd : plain (String (Py.digit_char (n mod 10)) acc)).
  { split; [|exact Hacc]. apply is_space_digit_char, Z.mod_pos_bound. lia. }
  destruct (n <? 10); [exact Hd | now apply IH].
Qed.

Lemma plain_zeros (k : nat) (s : string) : plain s -> plain (Py.zeros k s).
Proof. intros Hs. induction k as [|k IH]; [exact Hs|]. split; [reflexivity | exact IH]. Qed.

Lemma plain_zfill (k : nat) (n : Z) : plain (Py.zfill k (Py.digits n)).
Proof. apply plain_zeros, plain_digits_from. exact I. Qed.

(** The first character of a zero-filled number is a digit. *)
Lemma digits_from_head (fuel : nat) :
  forall n acc, exists d s,
    0 <= d < 10 /\ Py.digits_from (S fuel) n acc = String (Py.digit_char d) s.
Proof.
  induction fuel as [|fuel IH]; intros n acc.
  - exists (n mod 10), acc. split; [apply Z.mod_pos_bound; lia|].
    cbn [Py.digits_from]. now destruct (n <? 10).
  - cbn [Py.digits_from]. destruct (n <? 10).
    + exists (n mod 10), acc. split; [apply Z.mod_pos_bound; lia | reflexivity].
    + apply IH.
Qed.

Lemma zfill_head (k : nat) (n : Z) :
  exists d s, 0 <= d < 10 /\ Py.zfill k (Py.digits n) = String (Py.digit_char d) s.
Proof.
  unfold Py.zfill. destruct (k - String.length (Py.digits n))%nat as [|j].
  - apply digits_from_head.
  - exists 0, (Py.zeros j (Py.digits n)). split; [lia | reflexivity].
Qed.

Lemma int_digits_zeros (k : nat) (s : string) :
  Py.int_digits (Py.zeros k s) 0 true = Py.int_digits s 0 true.
Proof. induction k as [|k IH]; [reflexivity | exact IH]. Qed.

Lemma int_digits_zfill (k : nat) (n : Z) (b : bool) :
  0 <= n -> Py.int_digits (Py.zfill k (Py.digits n)) 0 b = Some n.
Proof.
  intros Hn. destruct (int_digits_digits n Hn) as [m Hm].
  unfold Py.zfill. destruct (k - String.length (Py.digits n))%nat as [|j].
  - cbn [Py.zeros]. now rewrite Hm.
  - cbn [Py.zeros]. change (Py.int_digits (String "0" ?s) 0 b) with (Py.int_digits s 0 true).
    now rewrite int_digits_zeros, Hm.
Qed.

(** [int] of an unsigned literal without surrounding whitespace. *)
Lemma int_unsigned (d : Z) (s : string) :
  0 <= d < 10 -> plain s ->
  Py.int (String (Py.digit_char d) s) = Py.int_digits (String (Py.digit_char d) s) 0 false.
Proof.
  intros Hd Hs. unfold Py.int.
  rewrite rstrip_plain by (split; [now apply is_space_digit_char | exact Hs]).
  cbn [Py.lstrip]. rewrite is_space_digit_char by exact Hd.
  each_digit d Hd; reflexivity.
Qed.

(** The number [04d] writes is the number [int] reads. *)
Lemma int_format_04d (n : Z) : Py.int (Py.format_04d n) = Some n.
Proof.
  unfold Py.format_04d. destruct (Z.ltb_spec n 0) as [Hneg|Hpos].
  - unfold Py.int.
    rewrite rstrip_plain by (split; [reflexivity | apply plain_zfill]).
    cbn [Py.lstrip]. change (Py.is_space "-") with false. cbv iota.
    rewrite int_digits_zfill by lia. cbn. f_equal. lia.
  - destruct (zfill_head 4 n) as (d & s & Hd & Hs).
    pose proof (plain_zfill 4 n) as Hp. rewrite Hs in Hp |- *.
    rewrite (int_unsigned d s Hd (proj2 Hp)). rewrite <- Hs.
    now apply int_digits_zfill.
Qed.

Lemma format_04d_inj (n m : Z) : Py.format_04d n = Py.format_04d m -> n = m.
Proof.
  intros H. apply (f_equal Py.int) in H. rewrite !int_format_04d in H. congruence.
Qed.

(** * The store: rows, ids and selections *)

Lemma order_by_id_app (rs : list invoices_row) (r : invoices_row) :
  order_by_id_desc_limit_1 (rs ++ [r]) =
  match order_by_id_desc_limit_1 rs with
  | None => Some r
  | Some b => if inv_id b <? inv_id r then Some r else Some b
  end.
Proof. unfold order_by_id_desc_limit_1. now rewrite fold_left_app. Qed.

(** The selected row is a row of the table and no row has a larger id. *)
Lemma order_by_id_max (rs : list invoices_row) :
  match order_by_id_desc_limit_1 rs with
  | None => rs = []
  | Some b => In b rs /\ forall r, In r rs -> inv_id r <= inv_id b
  end.
Proof.
  induction rs as [|r rs IH] using rev_ind; [reflexivity|].
  rewrite order_by_id_app.
  destruct (order_by_id_desc_limit_1 rs) as [b|].
  - destruct IH as [Hb Hmax].
    destruct (Z.ltb_spec (inv_id b) (inv_id r)).
    + split; [apply in_or_app; right; now left|].
      intros r' [Hr'|[<-|[]]]%in_app_or; [specialize (Hmax r' Hr')|]; lia.
    + split; [apply in_or_app; now left|].
      intros r' [Hr'|[<-|[]]]%in_app_or; [now apply Hmax | lia].
  - subst rs. split; [now left|]. intros r' [<-|[]]. lia.
Qed.


Lemma max_id_app {A : Type} (id : A -> Z) (rs : list A) (r : A) :
  max_id id (rs ++ [r]) = Z.max (max_id id rs) (id r).
Proof. unfold max_id. now rewrite fold_left_app. Qed.


Lemma find_app {A : Type} (p : A -> bool) (l l' : list A) :
  find p (l ++ l') = match find p l with Some x => Some x | None => find p l' end.
Proof.
  induction l as [|x l IH]; [reflexivity|].
  cbn. now destruct (p x).
Qed.

Section StoreFacts.
Context {json : Json}.

Lemma log_invoice_rows timestamp vendor invoice_no total invoice_json user_id db :
  log_invoice timestamp vendor invoice_no total invoice_json user_id db =
  {| invoices :=
       invoices db ++
       [ {| inv_id := next_id inv_id (invoices db);
            inv_timestamp := timestamp;
            inv_vendor := vendor;
            inv_invoice_no := invoice_no;
            inv_total := Py.to_float total;
            inv_user_id := user_id |} ];
     invoices_full :=
       invoices_full db ++
       [ {| full_id := next_id full_id (invoices_full db);
            full_timestamp := timestamp;
            full_invoice_no := invoice_no;
            full_invoice_json := json_dumps invoice_json;
            full_user_id := user_id |} ] |}.
Proof. reflexivity. Qed.

End StoreFacts.

Section Generation.
Context {json : Json}.

(** * What a successful run did *)

Lemma app_generated w now ss db no :
  run_outcome (app w now ss db) = Generated no ->
  exists d0 subtotal,
    app_form w (ss_invoice_data ss) = (d0, subtotal, w_discount w)
    /\ Py.truthy (ss_user_id ss) = true
    /\ incomplete_item_exists (Doc.items d0) = false
    /\ is_valid_items (Doc.items d0) = true
    /\ no = next_invoice_no db
    /\ let grand_total := Py.sub subtotal (Py.Float (w_discount w)) in
       let D :=
         Doc.set_grand_total grand_total
           (Doc.set_discount (w_discount w)
              (Doc.set_subtotal subtotal
                 (Doc.set_invoice_info
                    {| Info.invoice_no := no;
                       Info.date := today now;
                       Info.timestamp := utc_isoformat now |} d0))) in
       run_session (app w now ss db) = set_invoice_data D ss
       /\ run_db (app w now ss db) =
          log_invoice (utc_isoformat now) (Vendor.name (Doc.vendor d0)) no grand_total D
            (ss_user_id ss) db.
Proof.
  unfold app.
  destruct (Py.truthy (ss_user_id ss)) eqn:Huser; cbn [negb]; [|discriminate].
  destruct (app_form w (ss_invoice_data ss)) as [[d0 subtotal] disc] eqn:Hform.
  assert (disc = w_discount w) as ->.
  { unfold app_form in Hform. destruct (item_loop _ _ _ _). now inversion Hform. }
  destruct (incomplete_item_exists (Doc.items d0)) eqn:Hinc; [discriminate|].
  destruct (is_valid_items (Doc.items d0)) eqn:Hval; cbn [negb]; [|discriminate].
  cbn [run_outcome run_session run_db]. intros [= <-].
  exists d0, subtotal. repeat split; reflexivity || assumption.
Qed.

Lemma app_rejected w now ss db :
  (forall no, run_outcome (app w now ss db) <> Generated no) ->
  run_db (app w now ss db) = db.
Proof.
  unfold app.
  destruct (Py.truthy (ss_user_id ss)); cbn [negb]; [|reflexivity].
  destruct (app_form w (ss_invoice_data ss)) as [[d0 subtotal] disc].
  destruct (incomplete_item_exists (Doc.items d0)); [reflexivity|].
  destruct (is_valid_items (Doc.items d0)); cbn [negb]; [|reflexivity].
  intros H. now destruct (H (next_invoice_no db)).
Qed.

(** * Stores filled by generation are numbered 1, 2, 3, ... *)

Lemma numbered_facts rs fs :
  numbered rs fs ->
  let n := Z.of_nat (List.length rs) in
  List.length fs = List.length rs
  /\ max_id inv_id rs = n
  /\ max_id full_id fs = n
  /\ (forall r, In r rs -> exists k f, 1 <= k <= n /\ In f fs /\ row_pair k r f)
  /\ (forall f, In f fs -> exists k r, 1 <= k <= n /\ In r rs /\ row_pair k r f).
Proof.
  induction 1 as [|rs fs r f Hnum (Hlen & Hmr & Hmf & Hrs & Hfs) Hpair]; cbn zeta in *.
  - repeat split; try reflexivity; intros ? [].
  - rewrite !length_app, !max_id_app, Hmr, Hmf, Hlen. cbn [List.length].
    pose proof Hpair as (Hidr & Hidf & _). rewrite Hidr, Hidf.
    rewrite Nat2Z.inj_add. change (Z.of_nat 1) with 1.
    split; [reflexivity|]. split; [lia|]. split; [lia|]. split.
    + intros r' [Hr'|[<-|[]]]%in_app_or.
      * destruct (Hrs r' Hr') as (k & f' & Hk & Hf' & Hp).
        exists k, f'. split; [lia|]. split; [apply in_or_app; now left | exact Hp].
      * exists (Z.of_nat (List.length rs) + 1), f.
        split; [lia|]. split; [apply in_or_app; right; now left | exact Hpair].
    + intros f' [Hf'|[<-|[]]]%in_app_or.
      * destruct (Hfs f' Hf') as (k & r' & Hk & Hr' & Hp).
        exists k, r'. split; [lia|]. split; [apply in_or_app; now left | exact Hp].
      * exists (Z.of_nat (List.length rs) + 1), r.
        split; [lia|]. split; [apply in_or_app; right; now left | exact Hpair].
Qed.

(** On a numbered store the last number issued is the number of rows. *)
Lemma numbered_last rs fs :
  numbered rs fs ->
  match order_by_id_desc_limit_1 rs with
  | None => rs = []
  | Some r => inv_invoice_no r = Py.format_04d (Z.of_nat (List.length rs))
  end.
Proof.
  destruct 1 as [|rs fs r f Hnum Hpair]; [reflexivity|].
  rewrite order_by_id_app, length_app, Nat2Z.inj_add. cbn [List.length].
  change (Z.of_nat 1) with 1.
  destruct Hpair as (Hid & _ & Hno & _).
  pose proof (order_by_id_max rs) as Hmax.
  destruct (order_by_id_desc_limit_1 rs) as [b|]; [|exact Hno].
  destruct Hmax as [Hb _].
  destruct (numbered_facts rs fs Hnum) as (_ & _ & _ & Hrs & _).
  destruct (Hrs b Hb) as (k & f' & Hk & _ & Hidb & _).
  destruct (Z.ltb_spec (inv_id b) (inv_id r)); [exact Hno | lia].
Qed.

Lemma numbered_get_last db :
  numbered (invoices db) (invoices_full db) ->
  get_last_invoice_no_from_db db = Z.of_nat (List.length (invoices db)).
Proof.
  intros Hnum. unfold get_last_invoice_no_from_db. cbn [get_conn pending].
  pose proof (numbered_last _ _ Hnum) as H.
  destruct (order_by_id_desc_limit_1 (invoices db)) as [r|].
  - now rewrite H, int_format_04d.
  - now rewrite H.
Qed.

Lemma generated_numbered db :
  generated db -> numbered (invoices db) (invoices_full db).
Proof.
  induction 1 as [|db w now ss no Hgen IH Hout]; [constructor|].
  destruct (app_generated _ _ _ _ _ Hout)
    as (d0 & subtotal & Hform & Huser & Hinc & Hval & Hno & Hss & Hdb).
  rewrite Hdb, log_invoice_rows. cbn [invoices invoices_full].
  destruct (numbered_facts _ _ IH) as (Hlen & Hmr & Hmf & _).
  constructor; [exact IH|].
  unfold next_id. rewrite Hmr, Hmf.
  assert (Hk : no = Py.format_04d (Z.of_nat (List.length (invoices db)) + 1)).
  { rewrite Hno. unfold next_invoice_no. now rewrite numbered_get_last. }
  unfold row_pair. cbn.
  repeat (split; [reflexivity || exact Hk|]).
  eexists _, _. split; [reflexivity|]. cbn.
  split; [|repeat split; reflexivity || exact Hk].
  destruct subtotal; reflexivity.
Qed.

End Generation.

Section Claims.
Context {json : Json}.

(** * Sequence generator *)




(** * Record store *)

(** C6: the listing for an owner id consists of exactly the summary rows
    that carry this owner id; a row of another owner is never in it. *)
Theorem get_invoices_from_db_owner_only db user_id :
  Forall (fun r => inv_user_id r = user_id) (get_invoices_from_db db user_id)
  /\ (forall r, In r (get_invoices_from_db db user_id) <->
                In r (invoices db) /\ inv_user_id r = user_id)
  /\ (forall r, inv_user_id r <> user_id -> ~ In r (get_invoices_from_db db user_id)).
Proof.
  assert (Hiff : forall r, In r (get_invoices_from_db db user_id) <->
                           In r (invoices db) /\ inv_user_id r = user_id).
  { intros r. unfold get_invoices_from_db. cbn [get_conn pending].
    rewrite filter_In. now rewrite String.eqb_eq. }
  split; [|split].
  - apply Forall_forall. intros r Hr. now apply Hiff in Hr.
  - exact Hiff.
  - intros r Hne Hr. apply Hiff in Hr. tauto.
Qed.

Lemma find_full_row db invoice_no user_id :
  match find (fun r => String.eqb (full_invoice_no r) invoice_no
                       && String.eqb (full_user_id r) user_id) (invoices_full db) with
  | Some f => In f (invoices_full db) /\ full_invoice_no f = invoice_no
              /\ full_user_id f = user_id
  | None => forall f, In f (invoices_full db) ->
              ~ (full_invoice_no f = invoice_no /\ full_user_id f = user_id)
  end.
Proof.
  destruct (find _ _) as [f|] eqn:Hfind.
  - apply find_some in Hfind. destruct Hfind as [Hin Hb].
    apply andb_true_iff in Hb. now rewrite !String.eqb_eq in Hb.
  - intros f Hin [Hno Hu]. pose proof (find_none _ _ Hfind f Hin) as Hb.
    cbn beta in Hb. apply andb_false_iff in Hb. rewrite !String.eqb_neq in Hb. tauto.
Qed.

(** Retrieval answers None exactly when no row matches, whatever the rows
    hold. *)
Lemma get_full_invoice_data_none_iff db invoice_no user_id :
  get_full_invoice_data db invoice_no user_id = Returns None <->
  ~ (exists f, In f (invoices_full db)
               /\ full_invoice_no f = invoice_no /\ full_user_id f = user_id).
Proof.
  unfold get_full_invoice_data. cbn [get_conn pending].
  pose proof (find_full_row db invoice_no user_id) as Hfind.
  destruct (find _ _) as [f|].
  - destruct Hfind as (Hin & Hno & Hu). split.
    + destruct (json_loads (full_invoice_json f)); discriminate.
    + intros H. exfalso. apply H. now exists f.
  - split; [|reflexivity].
    intros _ (f & Hin & Hm). now destruct (Hfind f Hin).
Qed.

(** C10: on a store whose full rows hold text that [json.loads] reads,
    retrieval returns a document exactly when a row of [invoices_full]
    matches both the invoice number and the owner id, and returns None
    exactly when no row does; a number stored only under other owner ids
    is not found. *)
Theorem get_full_invoice_data_found_iff db invoice_no user_id :
  (forall f, In f (invoices_full db) -> json_loads (full_invoice_json f) <> None) ->
  ((exists d, get_full_invoice_data db invoice_no user_id = Returns (Some d)) <->
   (exists f, In f (invoices_full db)
              /\ full_invoice_no f = invoice_no /\ full_user_id f = user_id))
  /\ (get_full_invoice_data db invoice_no user_id = Returns None <->
      ~ (exists f, In f (invoices_full db)
                   /\ full_invoice_no f = invoice_no /\ full_user_id f = user_id))
  /\ ((forall f, In f (invoices_full db) -> full_invoice_no f = invoice_no ->
                 full_user_id f <> user_id) ->
      get_full_invoice_data db invoice_no user_id = Returns None).
Proof.
  intros Hdec.
  pose proof (get_full_invoice_data_none_iff db invoice_no user_id) as Hnone.
  split; [|split; [exact Hnone|]].
  - unfold get_full_invoice_data in *. cbn [get_conn pending] in *.
    pose proof (find_full_row db invoice_no user_id) as Hfind.
    destruct (find _ _) as [f|].
    + destruct Hfind as (Hin & Hno & Hu). specialize (Hdec f Hin).
      destruct (json_loads (full_invoice_json f)) as [d|]; [|congruence].
      split; [intros _; now exists f | intros _; now exists d].
    + split; [intros [d Hd]; discriminate|].
      intros (f & Hin & Hm). now destruct (Hfind f Hin).
  - intros Hother. apply Hnone. intros (f & Hin & Hno & Hu).
    now apply (Hother f Hin Hno).
Qed.

(** Stores written through [log_invoice] hold text that [json.loads] reads,
    provided [json.loads] reads what [json.dumps] writes. *)
Lemma logged_decodable db :
  (forall d, json_loads (json_dumps d) = Some d) ->
  logged db ->
  forall f, In f (invoices_full db) -> json_loads (full_invoice_json f) <> None.
Proof.
  intros Hjson. induction 1 as [|db ts v no total d uid Hlog IH]; [intros f []|].
  rewrite log_invoice_rows. cbn [invoices_full].
  intros f [Hf|[<-|[]]]%in_app_or; [now apply IH|].
  cbn. now rewrite Hjson.
Qed.

(** A document stored under a number and owner new to [invoices_full] is
    the one retrieval finds. *)
Lemma get_after_log_invoice timestamp vendor invoice_no total d user_id db :
  json_loads (json_dumps d) = Some d ->
  (forall f, In f (invoices_full db) ->
             ~ (full_invoice_no f = invoice_no /\ full_user_id f = user_id)) ->
  get_full_invoice_data
    (log_invoice timestamp vendor invoice_no total d user_id db) invoice_no user_id
  = Returns (Some d).
Proof.
  intros Hjson Hfresh. unfold get_full_invoice_data. cbn [get_conn pending].
  rewrite log_invoice_rows. cbn [invoices_full].
  rewrite find_app.
  pose proof (find_full_row db invoice_no user_id) as Hfind.
  destruct (find _ (invoices_full db)) as [f|].
  - destruct Hfind as (Hin & Hm). now destruct (Hfresh f Hin).
  - cbn. rewrite !String.eqb_refl. cbn. now rewrite Hjson.
Qed.

(** An earlier row with the same number and owner stays the one retrieval
    reads. *)
Lemma get_after_log_invoice_older timestamp vendor invoice_no total d user_id db f :
  find (fun r => String.eqb (full_invoice_no r) invoice_no
                 && String.eqb (full_user_id r) user_id) (invoices_full db) = Some f ->
  get_full_invoice_data
    (log_invoice timestamp vendor invoice_no total d user_id db) invoice_no user_id
  = get_full_invoice_data db invoice_no user_id.
Proof.
  intros Hf. unfold get_full_invoice_data. cbn [get_conn pending].
  rewrite log_invoice_rows. cbn [invoices_full]. now rewrite find_app, Hf.
Qed.


(** C8: a run that ends in either validation warning (or without a user
    id) leaves both tables as they were. *)
Theorem rejected_run_writes_nothing w now ss db :
  run_outcome (app w now ss db) = ItemValidationWarning
  \/ run_outcome (app w now ss db) = ValidationWarning
  \/ run_outcome (app w now ss db) = UserIdMissing ->
  run_db (app w now ss db) = db
  /\ invoices (run_db (app w now ss db)) = invoices db
  /\ invoices_full (run_db (app w now ss db)) = invoices_full db.
Proof.
  intros H.
  assert (Hdb : run_db (app w now ss db) = db).
  { apply app_rejected. intros no Hno. rewrite Hno in H.
    destruct H as [H|[H|H]]; discriminate. }
  now rewrite Hdb.
Qed.

End Claims.

(** * Validation of the items *)

Lemma truthy_iff (s : string) : Py.truthy s = true <-> s <> "".
Proof. destruct s; cbn; split; congruence. Qed.

Lemma truthy_false_iff (s : string) : Py.truthy s = false <-> s = "".
Proof. destruct s; cbn; split; congruence. Qed.

Lemma is_valid_items_iff items : is_valid_items items = true <-> has_valid_item items.
Proof.
  unfold is_valid_items, has_valid_item. rewrite existsb_exists.
  split; intros (item & Hin & H); exists item; (split; [exact Hin|]).
  - unfold valid_item in H. rewrite !andb_true_iff, truthy_iff, Z.ltb_lt in H. tauto.
  - unfold valid_item. rewrite !andb_true_iff, truthy_iff, Z.ltb_lt. tauto.
Qed.

Lemma incomplete_item_false_iff item :
  incomplete_item item = false <->
  (Item.name item <> "" ->
   0 < Item.quantity item /\ PrimFloat.leb (Item.price item) 0%float = false).
Proof.
  unfold incomplete_item.
  rewrite andb_false_iff, orb_false_iff, truthy_false_iff, Z.leb_gt.
  destruct (Item.name item) as [|c s].
  - split; [intros _ H; now destruct H | intros _; now left].
  - split; [intros [H|H] _; [discriminate | exact H] | intros H; right; now apply H].
Qed.

Lemma incomplete_item_exists_false_iff items :
  incomplete_item_exists items = false <-> no_incomplete_item items.
Proof.
  unfold incomplete_item_exists, no_incomplete_item. split.
  - intros H item Hin. apply incomplete_item_false_iff.
    destruct (incomplete_item item) eqn:E; [|reflexivity].
    rewrite <- H. symmetry. apply existsb_exists. now exists item.
  - intros H. destruct (existsb incomplete_item items) eqn:E; [|reflexivity].
    apply existsb_exists in E. destruct E as (item & Hin & Hinc).
    rewrite (proj2 (incomplete_item_false_iff item) (H item Hin)) in Hinc. discriminate.
Qed.

(** A price equal to zero is not above zero. *)
Lemma float_eq_0_not_pos (p : float) :
  PrimFloat.eqb p 0%float = true -> PrimFloat.ltb 0%float p = false.
Proof.
  rewrite eqb_spec, ltb_spec. change (Prim2SF 0%float) with (S754_zero false).
  destruct (Prim2SF p) as [s|s| |s m e]; try destruct s; cbn; congruence.
Qed.

Lemma valid_item_needs_both item :
  Item.quantity item = 0 \/ PrimFloat.eqb (Item.price item) 0%float = true ->
  valid_item item = false.
Proof.
  unfold valid_item. intros [Hq|Hp].
  - rewrite Hq. cbn. now rewrite andb_false_r.
  - rewrite (float_eq_0_not_pos _ Hp). now rewrite andb_false_r.
Qed.

(** * The item loop *)

Lemma item_loop_spec (w : form) :
  forall items i subtotal,
    let r := item_loop w i items subtotal in
    snd r = fold_left Py.add (map quantity_times_price (fst r)) subtotal
    /\ Forall (fun item => Item.line_total item = Some (quantity_times_price item)) (fst r)
    /\ List.length (fst r) = List.length items
    /\ forall j item, nth_error (fst r) j = Some item ->
         Item.name item = w_item_name w (i + j)%nat
         /\ Item.quantity item = w_item_quantity w (i + j)%nat
         /\ Item.price item = w_item_price w (i + j)%nat.
Proof.
  induction items as [|item0 rest IH]; intros i subtotal; cbn zeta.
  - cbn. split; [reflexivity|]. split; [constructor|]. split; [reflexivity|].
    intros [|j] it Hit; discriminate.
  - cbn [item_loop].
    set (item' := Item.set_line_total _ _).
    set (subtotal' := Py.add subtotal _).
    specialize (IH (S i) subtotal'). cbn zeta in IH.
    destruct (item_loop w (S i) rest subtotal') as [rest' s'].
    cbn [fst snd] in *. destruct IH as (Hs & Hall & Hlen & Hnth).
    split; [exact Hs|]. split; [constructor; [reflexivity | exact Hall]|].
    split; [cbn [List.length]; now rewrite Hlen|].
    intros [|j] it Hit; cbn in Hit.
    + injection Hit as <-. rewrite Nat.add_0_r. repeat split.
    + rewrite <- plus_n_Sm. exact (Hnth j it Hit).
Qed.

Section Assembly.
Context {json : Json}.

Lemma app_outcome w now ss db :
  ss_user_id ss <> "" ->
  let items := form_items w (ss_invoice_data ss) in
  run_outcome (app w now ss db) =
  if incomplete_item_exists items then ItemValidationWarning
  else if is_valid_items items then Generated (next_invoice_no db)
  else ValidationWarning.
Proof.
  intros Huser. cbn zeta. unfold app, form_items.
  apply truthy_iff in Huser. rewrite Huser. cbn [negb].
  destruct (app_form w (ss_invoice_data ss)) as [[d0 subtotal] disc]. cbn [fst].
  destruct (incomplete_item_exists (Doc.items d0)); [reflexivity|].
  now destruct (is_valid_items (Doc.items d0)).
Qed.

(** C2 (as amended): with a user id entered, generation accepts the items of
    the form if and only if at least one item has a non-empty name, a
    quantity above zero and a price above zero, and no item with a
    non-empty name has a quantity or a price of zero or less. Otherwise the
    run ends in one of the two validation warnings; in particular it does
    when every item has quantity 0 or price 0, names or not. *)
Theorem generation_accepts_iff w now ss db :
  ss_user_id ss <> "" ->
  let items := form_items w (ss_invoice_data ss) in
  let outcome := run_outcome (app w now ss db) in
  ((exists no, outcome = Generated no) <->
   has_valid_item items /\ no_incomplete_item items)
  /\ (~ (has_valid_item items /\ no_incomplete_item items) ->
      outcome = ItemValidationWarning \/ outcome = ValidationWarning)
  /\ ((forall item, In item items ->
         Item.quantity item = 0 \/ PrimFloat.eqb (Item.price item) 0%float = true) ->
      outcome = ItemValidationWarning \/ outcome = ValidationWarning).
Proof.
  intros Huser items outcome. subst outcome.
  rewrite (app_outcome w now ss db Huser). fold items.
  pose proof (incomplete_item_exists_false_iff items) as Hinc.
  pose proof (is_valid_items_iff items) as Hval.
  destruct (incomplete_item_exists items).
  - split; [|split]; [|now left..].
    split; [intros [no H]; discriminate|].
    intros [_ H]. apply Hinc in H. discriminate.
  - destruct (is_valid_items items) eqn:Hv.
    + split; [|split].
      * split; [intros _; split; [now apply Hval | now apply Hinc] | intros _; now eexists].
      * intros H. exfalso. apply H. split; [now apply Hval | now apply Hinc].
      * intros Hzero. exfalso.
        apply existsb_exists in Hv. destruct Hv as (item & Hin & Hitem).
        rewrite (valid_item_needs_both item (Hzero item Hin)) in Hitem. discriminate.
    + split; [|split]; [|now right..].
      split; [intros [no H]; discriminate|].
      intros [H _]. apply Hval in H. discriminate.
Qed.

(** C3: in every assembled document, each item's [line_total] is its
    quantity times its price, [subtotal] is the sum of these line totals,
    [discount] is the discount entered and [grand_total] is [subtotal]
    minus [discount], whatever its sign; this is the document written to
    the store. For quantities 2 and 1 at prices 10.0 and 5.0 with discount
    3.0 the subtotal is 25.0 and the grand total 22.0. *)
Theorem assembled_totals w now ss db no :
  run_outcome (app w now ss db) = Generated no ->
  let D := ss_invoice_data (run_session (app w now ss db)) in
  let line_totals := map quantity_times_price (Doc.items D) in
  Doc.items D = form_items w (ss_invoice_data ss)
  /\ Forall (fun item => Item.line_total item = Some (quantity_times_price item)) (Doc.items D)
  /\ Doc.subtotal D = Some (Py.sum line_totals)
  /\ Doc.discount D = Some (w_discount w)
  /\ Doc.grand_total D = Some (Py.sub (Py.sum line_totals) (Py.Float (w_discount w)))
  /\ (exists f, invoices_full (run_db (app w now ss db)) = invoices_full db ++ [f]
                /\ full_invoice_json f = json_dumps D)
  /\ (forall name1 name2 lt1 lt2,
        let items := [Item.Build_t name1 2 10%float lt1; Item.Build_t name2 1 5%float lt2] in
        Py.sum (map quantity_times_price items) = Py.Float 25%float
        /\ Py.sub (Py.sum (map quantity_times_price items)) (Py.Float 3%float)
           = Py.Float 22%float
        /\ Py.sub (Py.sum (map quantity_times_price items)) (Py.Float 30%float)
           = Py.Float (-5)%float).
Proof.
  intros Hout.
  destruct (app_generated _ _ _ _ _ Hout)
    as (d0 & subtotal & Hform & _ & _ & _ & _ & Hss & Hdb).
  cbn zeta. rewrite Hss, Hdb. cbn [ss_invoice_data set_invoice_data].
  unfold form_items. rewrite Hform. cbn [fst].
  unfold app_form in Hform.
  set (d1 := match w_client w with Some c => _ | None => _ end) in Hform.
  pose proof (item_loop_spec w (Doc.items d1) 0%nat (Py.Int 0)) as Hloop.
  cbn zeta in Hloop.
  destruct (item_loop w 0 (Doc.items d1) (Py.Int 0)) as [items' s'].
  cbn [fst snd] in Hloop. destruct Hloop as (Hs & Hall & _).
  injection Hform as <- <-. cbn.
  repeat split; try assumption; try (unfold Py.sum; now rewrite Hs).
  eexists. split; reflexivity.
Qed.

End Assembly.

Section AppendOnly.
Context {json : Json}.


(** On a store filled by generation the next number is new. *)
Lemma generated_next_is_new db :
  generated db ->
  (forall r, In r (invoices db) -> inv_invoice_no r <> next_invoice_no db)
  /\ (forall f, In f (invoices_full db) -> full_invoice_no f <> next_invoice_no db).
Proof.
  intros Hgen. pose proof (generated_numbered db Hgen) as Hnum.
  unfold next_invoice_no. rewrite (numbered_get_last db Hnum).
  destruct (numbered_facts _ _ Hnum) as (_ & _ & _ & Hrs & Hfs).
  split.
  - intros r Hr. destruct (Hrs r Hr) as (k & f & Hk & _ & _ & _ & Hno & _).
    rewrite Hno. intros H%format_04d_inj. lia.
  - intros f Hf. destruct (Hfs f Hf) as (k & r & Hk & _ & _ & _ & _ & Hno & _).
    rewrite Hno. intros H%format_04d_inj. lia.
Qed.

(** The document a run generates on a store filled by generation is the one
    retrieval returns for its number and owner. *)
Lemma generated_document_retrievable db w now ss no :
  generated db ->
  run_outcome (app w now ss db) = Generated no ->
  json_loads (json_dumps (ss_invoice_data (run_session (app w now ss db))))
  = Some (ss_invoice_data (run_session (app w now ss db))) ->
  get_full_invoice_data (run_db (app w now ss db)) no (ss_user_id ss)
  = Returns (Some (ss_invoice_data (run_session (app w now ss db)))).
Proof.
  intros Hgen Hout.
  destruct (app_generated _ _ _ _ _ Hout)
    as (d0 & subtotal & _ & _ & _ & _ & Hno & Hss & Hdb).
  rewrite Hss, Hdb. cbn [ss_invoice_data set_invoice_data]. intros Hjson.
  apply get_after_log_invoice; [exact Hjson|].
  intros f Hf [Hf_no _].
  destruct (generated_next_is_new db Hgen) as [_ Hnew].
  apply (Hnew f Hf). now rewrite Hf_no, Hno.
Qed.


(** C9: [log_invoice] inserts the summary row and the full row inside one
    transaction and commits once: until the commit the file is unchanged,
    after it both rows are there with the same timestamp, number and owner.
    On a store filled by generation every summary row therefore has its
    full row, and every full row its summary row, with the same id,
    invoice number, timestamp and owner; the stored document's
    [grand_total] is the total of the summary row. *)
Theorem summary_and_full_rows_go_together db :
  generated db ->
  (forall timestamp vendor invoice_no total invoice_json user_id,
      let c1 := insert_invoices timestamp vendor invoice_no total user_id (get_conn db) in
      let c2 := insert_invoices_full timestamp invoice_no (json_dumps invoice_json)
                  user_id c1 in
      close c1 = db /\ close c2 = db
      /\ close (commit c2) =
         log_invoice timestamp vendor invoice_no total invoice_json user_id db
      /\ exists r f,
           invoices (close (commit c2)) = invoices db ++ [r]
           /\ invoices_full (close (commit c2)) = invoices_full db ++ [f]
           /\ inv_invoice_no r = invoice_no /\ full_invoice_no f = invoice_no
           /\ inv_timestamp r = timestamp /\ full_timestamp f = timestamp
           /\ inv_user_id r = user_id /\ full_user_id f = user_id)
  /\ (forall r, In r (invoices db) ->
        exists f d,
          In f (invoices_full db)
          /\ full_id f = inv_id r
          /\ full_invoice_no f = inv_invoice_no r
          /\ full_timestamp f = inv_timestamp r
          /\ full_user_id f = inv_user_id r
          /\ full_invoice_json f = json_dumps d
          /\ Doc.grand_total d = Some (Py.Float (inv_total r)))
  /\ (forall f, In f (invoices_full db) ->
        exists r d,
          In r (invoices db)
          /\ full_id f = inv_id r
          /\ full_invoice_no f = inv_invoice_no r
          /\ full_timestamp f = inv_timestamp r
          /\ full_user_id f = inv_user_id r
          /\ full_invoice_json f = json_dumps d
          /\ Doc.grand_total d = Some (Py.Float (inv_total r))).
Proof.
  intros Hgen. pose proof (generated_numbered db Hgen) as Hnum.
  destruct (numbered_facts _ _ Hnum) as (_ & _ & _ & Hrs & Hfs).
  split; [|split].
  - intros. cbn. destruct db. repeat split. eexists _, _. repeat split.
  - intros r Hr.
    destruct (Hrs r Hr)
      as (k & f & _ & Hf & Hidr & Hidf & Hnr & Hnf & Hts & Hu & d & info & Hj & Hg & _).
    exists f, d. repeat split; congruence.
  - intros f Hf.
    destruct (Hfs f Hf)
      as (k & r & _ & Hr & Hidr & Hidf & Hnr & Hnf & Hts & Hu & d & info & Hj & Hg & _).
    exists r, d. repeat split; congruence.
Qed.

End AppendOnly.

(* ===================================================================== *)
(** * Closed examples *)
(* ===================================================================== *)

Example int_reads_literals :
  Py.int "0007" = Some 7 /\ Py.int " +1_000 " = Some 1000 /\ Py.int "-12" = Some (-12)
  /\ Py.int "INV-7" = None /\ Py.int "1__0" = None /\ Py.int "_1" = None
  /\ Py.int "1_" = None /\ Py.int "" = None /\ Py.int "- 1" = None.
Proof. repeat split; reflexivity. Qed.

Example format_04d_pads :
  Py.format_04d 8 = "0008" /\ Py.format_04d 12345 = "12345"
  /\ Py.format_04d 0 = "0000" /\ Py.format_04d (-4) = "-004".
Proof. repeat split; reflexivity. Qed.

Example float_of_int_rounds :
  Py.mul (Py.Int 2) (Py.Float 10%float) = Py.Float 20%float
  /\ Py.float_of_int (2 ^ 53 + 1) = Py.float_of_int (2 ^ 53).
Proof. split; reflexivity. Qed.

Lemma generated_db1 : generated (json := SexpCodec.codec) Ex.db1.
Proof.
  unfold Ex.db1, Ex.run1. apply generated_app with (invoice_no := "0001").
  - constructor.
  - vm_compute. reflexivity.
Qed.

Lemma generated_db2 : generated (json := SexpCodec.codec) Ex.db2.
Proof.
  unfold Ex.db2, Ex.run2. apply generated_app with (invoice_no := "0002").
  - exact generated_db1.
  - vm_compute. reflexivity.
Qed.

Lemma decodable_db2 :
  forall f, In f (invoices_full Ex.db2) ->
    json_loads (Json := SexpCodec.codec) (full_invoice_json f) <> None.
Proof.
  assert (H : forallb
                (fun f => match json_loads (Json := SexpCodec.codec) (full_invoice_json f) with
                          | Some _ => true
                          | None => false
                          end)
                (invoices_full Ex.db2) = true) by (vm_compute; reflexivity).
  intros f Hf. rewrite forallb_forall in H. specialize (H f Hf).
  destruct (json_loads (full_invoice_json f)); discriminate.
Qed.




(** C2, the claim as stated fails: the first item is complete, the second
    has a name and price 0.0; the list has a valid item and is rejected. *)
Lemma valid_item_does_not_suffice :
  has_valid_item (form_items Ex.unpriced_ink Ex.two_rows)
  /\ run_outcome (app (json := SexpCodec.codec) Ex.unpriced_ink Ex.noon
                    (Ex.session "shop-1" Ex.two_rows) empty_db)
     = ItemValidationWarning.
Proof.
  split; [|vm_compute; reflexivity].
  exists (Item.Build_t "Pen" 2 10%float (Some (Py.Float 20%float))).
  split; [vm_compute; left; reflexivity|].
  cbn. split; [discriminate|]. split; reflexivity.
Qed.

(** C2 (as amended) at the order of two complete items. *)
Lemma generation_accepts_order :
  ss_user_id (Ex.session "shop-1" Ex.two_rows) <> ""
  /\ has_valid_item (form_items Ex.order Ex.two_rows)
  /\ no_incomplete_item (form_items Ex.order Ex.two_rows).
Proof.
  assert (H : ss_user_id (Ex.session "shop-1" Ex.two_rows) <> "") by discriminate.
  split; [exact H|].
  apply (proj1 (proj1 (generation_accepts_iff (json := SexpCodec.codec)
                         Ex.order Ex.noon (Ex.session "shop-1" Ex.two_rows) empty_db H))).
  exists "0001". vm_compute. reflexivity.
Defined.

(** C3 at the order of the specification: subtotal 25.0, grand total
    22.0. *)
Lemma totals_of_order :
  run_outcome Ex.run1 = Generated "0001"
  /\ Doc.subtotal Ex.doc1 = Some (Py.Float 25%float)
  /\ Doc.grand_total Ex.doc1 = Some (Py.Float 22%float).
Proof.
  assert (H : run_outcome Ex.run1 = Generated "0001") by (vm_compute; reflexivity).
  split; [exact H|].
  destruct (assembled_totals (json := SexpCodec.codec) Ex.order Ex.noon
              (Ex.session "shop-1" Ex.two_rows) empty_db "0001" H)
    as (_ & _ & Hsub & _ & Hgrand & _).
  split; [exact Hsub | exact Hgrand].
Defined.




(** C8 at a run stopped by the incomplete-item warning. *)
Lemma rejected_run_of_unpriced_ink :
  run_outcome (app (json := SexpCodec.codec) Ex.unpriced_ink Ex.evening
                 (Ex.session "shop-1" Ex.doc1) Ex.db1) = ItemValidationWarning
  /\ run_db (app (json := SexpCodec.codec) Ex.unpriced_ink Ex.evening
               (Ex.session "shop-1" Ex.doc1) Ex.db1) = Ex.db1.
Proof.
  assert (H : run_outcome (app (json := SexpCodec.codec) Ex.unpriced_ink Ex.evening
                             (Ex.session "shop-1" Ex.doc1) Ex.db1) = ItemValidationWarning)
    by (vm_compute; reflexivity).
  split; [exact H|].
  apply (rejected_run_writes_nothing (json := SexpCodec.codec)).
  left. exact H.
Defined.

(** C9 at the store after two generated documents. *)
Lemma rows_of_db2_go_together :
  generated (json := SexpCodec.codec) Ex.db2
  /\ forall r, In r (invoices Ex.db2) ->
       exists f d,
         In f (invoices_full Ex.db2)
         /\ full_id f = inv_id r
         /\ full_invoice_no f = inv_invoice_no r
         /\ full_timestamp f = inv_timestamp r
         /\ full_user_id f = inv_user_id r
         /\ full_invoice_json f = json_dumps (Json := SexpCodec.codec) d
         /\ Doc.grand_total d = Some (Py.Float (inv_total r)).
Proof.
  split; [exact generated_db2|].
  exact (proj1 (proj2 (summary_and_full_rows_go_together (json := SexpCodec.codec)
                         Ex.db2 generated_db2))).
Defined.

(** C10 at the store of shop-1: its number 0001 is found for shop-1 and
    not for shop-2. *)
Lemma get_full_invoice_data_other_owner :
  get_full_invoice_data (json := SexpCodec.codec) Ex.db2 "0001" "shop-2" = Returns None
  /\ exists d, get_full_invoice_data (json := SexpCodec.codec) Ex.db2 "0001" "shop-1"
               = Returns (Some d).
Proof.
  destruct (get_full_invoice_data_found_iff (json := SexpCodec.codec)
              Ex.db2 "0001" "shop-2" decodable_db2) as (_ & _ & Hother).
  destruct (get_full_invoice_data_found_iff (json := SexpCodec.codec)
              Ex.db2 "0001" "shop-1" decodable_db2) as (Hfound & _).
  split.
  - apply Hother. vm_compute. intros f [<-|[<-|[]]] Hno; discriminate.
  - apply Hfound. vm_compute. eexists. split; [left; reflexivity|]. split; reflexivity.
Defined.

(* ===================================================================== *)
(** * Further properties *)
(* ===================================================================== *)

(** * More on the numbers *)




Section MoreStore.
Context {json : Json}.

(** * The number after a store *)



(** * Stores written through [log_invoice] *)

Lemma logged_shape db :
  logged db ->
  Forall2 same_key (invoices db) (invoices_full db)
  /\ max_id inv_id (invoices db) = Z.of_nat (List.length (invoices db))
  /\ max_id full_id (invoices_full db) = Z.of_nat (List.length (invoices db))
  /\ forall k r, nth_error (invoices db) k = Some r -> inv_id r = Z.of_nat k + 1.
Proof.
  induction 1 as [|db ts v no total d uid Hlog (Hpair & Hmr & Hmf & Hid)].
  - cbn. repeat split; try constructor. intros [|k] r H; discriminate.
  - rewrite log_invoice_rows. cbn [invoices invoices_full].
    rewrite !max_id_app, length_app. unfold next_id. cbn [inv_id full_id List.length].
    rewrite Hmr, Hmf, Nat2Z.inj_add. change (Z.of_nat 1) with 1.
    split; [|split; [lia | split; [lia|]]].
    + apply Forall2_app; [exact Hpair|]. constructor; [|constructor].
      unfold same_key. cbn. now repeat split.
    + intros k r Hk.
      destruct (Nat.lt_ge_cases k (List.length (invoices db))) as [Hlt|Hge].
      * rewrite nth_error_app1 in Hk by exact Hlt. now apply Hid.
      * rewrite nth_error_app2 in Hk by exact Hge.
        destruct (k - List.length (invoices db))%nat as [|j] eqn:Hj.
        -- cbn in Hk. injection Hk as <-. cbn [inv_id]. lia.
        -- cbn in Hk. destruct j; discriminate.
Qed.

End MoreStore.

Lemma Forall2_nth_error {A B : Type} (P : A -> B -> Prop) (l : list A) (l' : list B) :
  Forall2 P l l' ->
  forall k a, nth_error l k = Some a -> exists b, nth_error l' k = Some b /\ P a b.
Proof.
  induction 1 as [|x y l l' Hxy HF IH]; intros [|k] a Hk; try discriminate.
  - injection Hk as <-. now exists y.
  - now apply IH.
Qed.

Lemma Forall2_In_l {A B : Type} (P : A -> B -> Prop) (l : list A) (l' : list B) :
  Forall2 P l l' -> forall a, In a l -> exists b, In b l' /\ P a b.
Proof.
  induction 1 as [|x y l l' Hxy HF IH]; intros a []; subst.
  - exists y. split; [now left | exact Hxy].
  - destruct (IH a H) as (b & Hb & Hab). exists b. split; [now right | exact Hab].
Qed.

Lemma Forall2_In_r {A B : Type} (P : A -> B -> Prop) (l : list A) (l' : list B) :
  Forall2 P l l' -> forall b, In b l' -> exists a, In a l /\ P a b.
Proof.
  induction 1 as [|x y l l' Hxy HF IH]; intros b []; subst.
  - exists x. split; [now left | exact Hxy].
  - destruct (IH b H) as (a & Ha & Hab). exists a. split; [now right | exact Hab].
Qed.

Section StoreProperties.
Context {json : Json}.

(** X3: in every store written through [log_invoice], with any arguments,
    the two tables have the same number of rows, the k-th rows have id k,
    and the k-th summary row and the k-th full row carry the same invoice
    number, timestamp and owner id. *)
Theorem logged_tables_in_step db :
  logged db ->
  List.length (invoices_full db) = List.length (invoices db)
  /\ forall k r, nth_error (invoices db) k = Some r ->
       exists f, nth_error (invoices_full db) k = Some f
         /\ inv_id r = Z.of_nat k + 1 /\ full_id f = Z.of_nat k + 1
         /\ full_invoice_no f = inv_invoice_no r
         /\ full_timestamp f = inv_timestamp r
         /\ full_user_id f = inv_user_id r.
Proof.
  intros Hlog. destruct (logged_shape db Hlog) as (Hpair & _ & _ & Hid).
  split; [symmetry; exact (Forall2_length Hpair)|].
  intros k r Hk.
  destruct (Forall2_nth_error _ _ _ Hpair k r Hk) as (f & Hf & Hi & Hn & Ht & Hu).
  exists f. specialize (Hid k r Hk). repeat split; congruence.
Qed.

(** X4: after [log_invoice] the listing of the owner who stored ends with
    the new summary row, and the listing of every other owner is what it
    was. *)
Theorem listing_after_log_invoice timestamp vendor invoice_no total d user_id db other :
  get_invoices_from_db (log_invoice timestamp vendor invoice_no total d user_id db) user_id
  = get_invoices_from_db db user_id
    ++ [ {| inv_id := next_id inv_id (invoices db);
            inv_timestamp := timestamp;
            inv_vendor := vendor;
            inv_invoice_no := invoice_no;
            inv_total := Py.to_float total;
            inv_user_id := user_id |} ]
  /\ (other <> user_id ->
      get_invoices_from_db (log_invoice timestamp vendor invoice_no total d user_id db) other
      = get_invoices_from_db db other).
Proof.
  unfold get_invoices_from_db. cbn [get_conn pending].
  rewrite log_invoice_rows. cbn [invoices]. rewrite !filter_app. cbn [filter inv_user_id].
  rewrite String.eqb_refl. split; [reflexivity|].
  intros Hne. apply not_eq_sym, String.eqb_neq in Hne. rewrite Hne. now rewrite app_nil_r.
Qed.

(** X5: [log_invoice] changes what retrieval returns for a number and an
    owner id only when it stores under exactly this number and owner and
    no row carried them before: every other retrieval, and every retrieval
    that found a row, gives the same result after as before. *)
Theorem retrieval_after_log_invoice timestamp vendor invoice_no total d user_id db no' user' :
  no' <> invoice_no \/ user' <> user_id
  \/ (exists f, In f (invoices_full db)
                /\ full_invoice_no f = no' /\ full_user_id f = user') ->
  get_full_invoice_data (log_invoice timestamp vendor invoice_no total d user_id db) no' user'
  = get_full_invoice_data db no' user'.
Proof.
  intros H. unfold get_full_invoice_data. cbn [get_conn pending].
  rewrite log_invoice_rows. cbn [invoices_full]. rewrite find_app.
  pose proof (find_full_row db no' user') as Hfind.
  destruct (find _ (invoices_full db)) as [f|]; [reflexivity|].
  cbn [find full_invoice_no full_user_id].
  destruct H as [Hno | [Hu | (f & Hin & Hm)]].
  - apply not_eq_sym, String.eqb_neq in Hno. now rewrite Hno.
  - apply not_eq_sym, String.eqb_neq in Hu. rewrite Hu. now rewrite andb_false_r.
  - now destruct (Hfind f Hin).
Qed.

Lemma sorted_filter {A : Type} (R : A -> A -> Prop) (p : A -> bool) (l : list A) :
  StronglySorted R l -> StronglySorted R (filter p l).
Proof.
  induction 1 as [|a l Hs IH Ha]; [constructor|].
  cbn. destruct (p a); [|exact IH].
  constructor; [exact IH|].
  apply Forall_forall. intros x Hx. apply filter_In in Hx.
  rewrite Forall_forall in Ha. now apply Ha.
Qed.

Lemma sorted_by_position (l : list invoices_row) :
  forall o, (forall k r, nth_error l k = Some r -> inv_id r = Z.of_nat k + o) ->
  StronglySorted (fun a b => inv_id a < inv_id b) l.
Proof.
  induction l as [|a l IH]; intros o Hid; constructor.
  - apply (IH (o + 1)). intros k r Hk. rewrite (Hid (S k) r Hk). lia.
  - apply Forall_forall. intros x Hx.
    destruct (In_nth_error _ _ Hx) as [k Hk].
    rewrite (Hid 0%nat a eq_refl), (Hid (S k) x Hk). lia.
Qed.

(** X6: in every store written through [log_invoice] the listing of an
    owner is in the order the documents were stored: the ids of its rows
    increase strictly. *)
Theorem listing_in_order_of_storing db user_id :
  logged db ->
  StronglySorted (fun a b => inv_id a < inv_id b) (get_invoices_from_db db user_id).
Proof.
  intros Hlog. destruct (logged_shape db Hlog) as (_ & _ & _ & Hid).
  unfold get_invoices_from_db. cbn [get_conn pending].
  apply sorted_filter. now apply (sorted_by_position _ 1).
Qed.

End StoreProperties.

Section GeneratedStores.
Context {json : Json}.

Lemma numbered_nth rs fs :
  numbered rs fs ->
  (forall k r, nth_error rs k = Some r ->
     exists f, nth_error fs k = Some f /\ row_pair (Z.of_nat k + 1) r f)
  /\ (forall k f, nth_error fs k = Some f ->
        exists r, nth_error rs k = Some r /\ row_pair (Z.of_nat k + 1) r f).
Proof.
  induction 1 as [|rs fs r f Hnum [IHr IHf] Hpair].
  - split; intros [|k] x H; discriminate.
  - destruct (numbered_facts _ _ Hnum) as (Hlen & _).
    split; intros k x Hk.
    + destruct (Nat.lt_ge_cases k (List.length rs)) as [Hlt|Hge].
      * rewrite nth_error_app1 in Hk by exact Hlt.
        destruct (IHr k x Hk) as (f' & Hf' & Hp). exists f'.
        split; [|exact Hp]. rewrite nth_error_app1; [exact Hf'|].
        apply nth_error_Some. congruence.
      * rewrite nth_error_app2 in Hk by exact Hge.
        destruct (k - List.length rs)%nat as [|j] eqn:Hj; [|destruct j; discriminate].
        injection Hk as <-. assert (k = List.length rs) as -> by lia.
        exists f. split; [|exact Hpair].
        rewrite nth_error_app2 by lia. now rewrite Hlen, Nat.sub_diag.
    + destruct (Nat.lt_ge_cases k (List.length fs)) as [Hlt|Hge].
      * rewrite nth_error_app1 in Hk by exact Hlt.
        destruct (IHf k x Hk) as (r' & Hr' & Hp). exists r'.
        split; [|exact Hp]. rewrite nth_error_app1; [exact Hr'|].
        apply nth_error_Some. congruence.
      * rewrite nth_error_app2 in Hk by exact Hge.
        destruct (k - List.length fs)%nat as [|j] eqn:Hj; [|destruct j; discriminate].
        injection Hk as <-. assert (k = List.length rs) as -> by lia.
        exists r. split; [|exact Hpair].
        rewrite nth_error_app2 by lia. now rewrite Nat.sub_diag.
Qed.

(** X7: on a store filled by generation the documents are numbered in one
    sequence for all owners: the k-th summary row has id k and invoice
    number k in four digits, and the next number is the number of rows
    plus one. *)
Theorem generated_numbers_run_on db :
  generated db ->
  (forall k r, nth_error (invoices db) k = Some r ->
     inv_id r = Z.of_nat k + 1 /\ inv_invoice_no r = Py.format_04d (Z.of_nat k + 1))
  /\ next_invoice_no db = Py.format_04d (Z.of_nat (List.length (invoices db)) + 1).
Proof.
  intros Hgen. pose proof (generated_numbered db Hgen) as Hnum.
  split.
  - intros k r Hk. destruct (numbered_nth _ _ Hnum) as [Hr _].
    destruct (Hr k r Hk) as (f & _ & Hid & _ & Hno & _). now split.
  - unfold next_invoice_no. now rewrite (numbered_get_last db Hnum).
Qed.

(** X8: on a store filled by generation no invoice number occurs twice, in
    either table. *)
Theorem generated_numbers_distinct db :
  generated db ->
  NoDup (map inv_invoice_no (invoices db))
  /\ NoDup (map full_invoice_no (invoices_full db)).
Proof.
  intros Hgen. pose proof (generated_numbered db Hgen) as Hnum.
  destruct (numbered_nth _ _ Hnum) as [Hr Hf].
  split; apply NoDup_nth_error; intros i j Hi Hij;
    rewrite !nth_error_map in Hij; rewrite length_map in Hi;
    apply nth_error_Some in Hi.
  - destruct (nth_error (invoices db) i) as [ri|] eqn:Ei; [|congruence].
    destruct (nth_error (invoices db) j) as [rj|] eqn:Ej; [|discriminate].
    destruct (Hr i ri Ei) as (_ & _ & _ & _ & Hni & _).
    destruct (Hr j rj Ej) as (_ & _ & _ & _ & Hnj & _).
    cbn in Hij. injection Hij as Hij. rewrite Hni, Hnj in Hij.
    apply format_04d_inj in Hij. lia.
  - destruct (nth_error (invoices_full db) i) as [fi|] eqn:Ei; [|congruence].
    destruct (nth_error (invoices_full db) j) as [fj|] eqn:Ej; [|discriminate].
    destruct (Hf i fi Ei) as (_ & _ & _ & _ & _ & Hni & _).
    destruct (Hf j fj Ej) as (_ & _ & _ & _ & _ & Hnj & _).
    cbn in Hij. injection Hij as Hij. rewrite Hni, Hnj in Hij.
    apply format_04d_inj in Hij. lia.
Qed.

(** X9: on a store filled by generation every stored document can be
    retrieved: for each full row, retrieval by the row's invoice number and
    owner id reads this very row. *)
Theorem generated_rows_retrievable db f :
  generated db ->
  In f (invoices_full db) ->
  get_full_invoice_data db (full_invoice_no f) (full_user_id f)
  = match json_loads (full_invoice_json f) with
    | Some d => Returns (Some d)
    | None => Raises JSONDecodeError
    end.
Proof.
  intros Hgen Hin. pose proof (generated_numbered db Hgen) as Hnum.
  destruct (numbered_nth _ _ Hnum) as [_ Hf].
  unfold get_full_invoice_data. cbn [get_conn pending].
  pose proof (find_full_row db (full_invoice_no f) (full_user_id f)) as Hfind.
  destruct (find _ (invoices_full db)) as [f'|].
  - destruct Hfind as (Hin' & Hno & _).
    destruct (In_nth_error _ _ Hin) as [k Hk].
    destruct (In_nth_error _ _ Hin') as [k' Hk'].
    destruct (Hf k f Hk) as (_ & _ & _ & _ & _ & Hn & _).
    destruct (Hf k' f' Hk') as (_ & _ & _ & _ & _ & Hn' & _).
    rewrite Hn, Hn' in Hno. apply format_04d_inj in Hno.
    assert (k' = k) as -> by lia. rewrite Hk in Hk'. now injection Hk' as <-.
  - now destruct (Hfind f Hin).
Qed.

(** A property of the pair of rows each successful run appends holds for
    all rows of a store filled by generation. *)
Lemma generated_rows (P : invoices_row -> invoices_full_row -> Prop) :
  (forall db w now ss no r f,
      generated db ->
      run_outcome (app w now ss db) = Generated no ->
      invoices (run_db (app w now ss db)) = invoices db ++ [r] ->
      invoices_full (run_db (app w now ss db)) = invoices_full db ++ [f] ->
      P r f) ->
  forall db, generated db -> Forall2 P (invoices db) (invoices_full db).
Proof.
  intros HP. induction 1 as [|db w now ss no Hgen IH Hout]; [constructor|].
  destruct (app_generated _ _ _ _ _ Hout) as (d0 & subtotal & _ & _ & _ & _ & _ & _ & Hdb).
  pose proof Hdb as Hdb'. rewrite log_invoice_rows in Hdb'.
  rewrite Hdb'. cbn [invoices invoices_full].
  apply Forall2_app; [exact IH|]. constructor; [|constructor].
  apply (HP db w now ss no); [exact Hgen | exact Hout | |]; now rewrite Hdb'.
Qed.

(** X10: on a store filled by generation no row is without an owner: the
    owner id of every summary row and of every full row is not empty. *)
Theorem generated_rows_have_owner db :
  generated db ->
  (forall r, In r (invoices db) -> inv_user_id r <> "")
  /\ (forall f, In f (invoices_full db) -> full_user_id f <> "").
Proof.
  intros Hgen.
  assert (H : Forall2 (fun r f => inv_user_id r <> "" /\ full_user_id f <> "")
                (invoices db) (invoices_full db)).
  { apply generated_rows; [|exact Hgen].
    intros db0 w now ss no r f _ Hout Hr Hf.
    destruct (app_generated _ _ _ _ _ Hout)
      as (d0 & subtotal & _ & Huser & _ & _ & _ & _ & Hdb).
    rewrite Hdb, log_invoice_rows in Hr, Hf. cbn [invoices invoices_full] in Hr, Hf.
    apply app_inj_tail in Hr, Hf. destruct Hr as [_ <-], Hf as [_ <-]. cbn.
    apply truthy_iff in Huser. now split. }
  split.
  - intros r Hr. destruct (Forall2_In_l _ _ _ H r Hr) as (f & _ & Hp). tauto.
  - intros f Hf. destruct (Forall2_In_r _ _ _ H f Hf) as (r & _ & Hp). tauto.
Qed.

Lemma sum_is_float (items : list Item.t) (s : Py.num) :
  items <> [] ->
  exists x, fold_left Py.add (map quantity_times_price items) s = Py.Float x.
Proof.
  destruct items as [|a items] using rev_ind; [congruence|]. intros _.
  rewrite map_app, fold_left_app. cbn.
  destruct (fold_left Py.add (map quantity_times_price items) s); cbn; eauto.
Qed.

Lemma valid_items_not_nil (items : list Item.t) : is_valid_items items = true -> items <> [].
Proof. now destruct items. Qed.

(** The document a successful run stores. *)
Lemma app_stores_well_formed w now ss db no r f :
  run_outcome (app w now ss db) = Generated no ->
  invoices (run_db (app w now ss db)) = invoices db ++ [r] ->
  invoices_full (run_db (app w now ss db)) = invoices_full db ++ [f] ->
  exists d, full_invoice_json f = json_dumps d /\ well_formed d /\ summary_of d r.
Proof.
  intros Hout Hr Hf.
  destruct (app_generated _ _ _ _ _ Hout)
    as (d0 & subtotal & Hform & _ & Hinc & Hval & _ & _ & Hdb).
  rewrite Hdb, log_invoice_rows in Hr, Hf. cbn [invoices invoices_full] in Hr, Hf.
  apply app_inj_tail in Hr, Hf. destruct Hr as [_ <-], Hf as [_ <-].
  eexists. split; [reflexivity|].
  unfold app_form in Hform.
  set (d1 := match w_client w with Some c => _ | None => _ end) in Hform.
  pose proof (item_loop_spec w (Doc.items d1) 0%nat (Py.Int 0)) as Hloop.
  cbn zeta in Hloop.
  destruct (item_loop w 0 (Doc.items d1) (Py.Int 0)) as [items' s'].
  cbn [fst snd] in Hloop. destruct Hloop as (Hs & Hall & _).
  injection Hform as <- <-. cbn [Doc.items Doc.set_items] in Hinc, Hval.
  destruct (sum_is_float items' (Py.Int 0) (valid_items_not_nil _ Hval)) as [x Hx].
  split.
  - unfold well_formed. cbn.
    split; [now apply is_valid_items_iff|].
    split; [now apply incomplete_item_exists_false_iff|].
    split; [exact Hall|].
    exists x, (w_discount w). eexists.
    unfold Py.sum. rewrite <- Hs, Hx in *. cbn. repeat split.
  - unfold summary_of. cbn. rewrite Hs, Hx. cbn.
    split; [reflexivity|]. split; [reflexivity|]. eexists. repeat split.
Qed.

(** X11: on a store filled by generation every stored document passed
    validation and is consistent: it has a valid item and no incomplete
    one, every item carries quantity times price as its line total, its
    subtotal is a float and the sum of the line totals, and its grand
    total is subtotal minus discount. *)
Theorem stored_documents_well_formed db f :
  generated db ->
  In f (invoices_full db) ->
  exists d, full_invoice_json f = json_dumps d /\ well_formed d.
Proof.
  intros Hgen Hin.
  assert (H : Forall2 (fun r f => exists d, full_invoice_json f = json_dumps d
                                           /\ well_formed d)
                (invoices db) (invoices_full db)).
  { apply generated_rows; [|exact Hgen].
    intros db0 w now ss no r0 f0 _ Hout Hr Hf.
    destruct (app_stores_well_formed _ _ _ _ _ _ _ Hout Hr Hf) as (d & Hd & Hw & _).
    now exists d. }
  destruct (Forall2_In_r _ _ _ H f Hin) as (r & _ & Hp). exact Hp.
Qed.

(** X12: on a store filled by generation every summary row is a projection
    of the document in the full row beside it: the vendor name, the
    invoice number and timestamp of [invoice_info], and the grand total. *)
Theorem summary_rows_project_documents db :
  generated db ->
  Forall2 (fun r f => same_key r f
                      /\ exists d, full_invoice_json f = json_dumps d /\ summary_of d r)
    (invoices db) (invoices_full db).
Proof.
  apply generated_rows.
  intros db0 w now ss no r f Hgen0 Hout Hr Hf.
  destruct (app_stores_well_formed _ _ _ _ _ _ _ Hout Hr Hf) as (d & Hd & _ & Hs).
  split; [|now exists d].
  destruct (app_generated _ _ _ _ _ Hout) as (d0 & subtotal & _ & _ & _ & _ & _ & _ & Hdb).
  rewrite Hdb, log_invoice_rows in Hr, Hf. cbn [invoices invoices_full] in Hr, Hf.
  apply app_inj_tail in Hr, Hf. destruct Hr as [_ <-], Hf as [_ <-].
  destruct (numbered_facts _ _ (generated_numbered db0 Hgen0)) as (_ & Hmr & Hmf & _).
  unfold same_key, next_id. cbn. rewrite Hmr, Hmf. now repeat split.
Qed.

(** X13: a run that ends in a validation warning keeps what the form holds
    in the draft and stamps nothing on it: [invoice_info], [subtotal],
    [discount] and [grand_total] of the draft are what they were. *)
Theorem rejected_run_keeps_draft w now ss db :
  run_outcome (app w now ss db) = ItemValidationWarning
  \/ run_outcome (app w now ss db) = ValidationWarning ->
  let d := ss_invoice_data ss in
  let d' := ss_invoice_data (run_session (app w now ss db)) in
  d' = fst (fst (app_form w d))
  /\ Doc.items d' = form_items w d
  /\ Doc.invoice_info d' = Doc.invoice_info d
  /\ Doc.subtotal d' = Doc.subtotal d
  /\ Doc.discount d' = Doc.discount d
  /\ Doc.grand_total d' = Doc.grand_total d.
Proof.
  intros H. cbn zeta.
  assert (Hd : ss_invoice_data (run_session (app w now ss db))
               = fst (fst (app_form w (ss_invoice_data ss)))).
  { revert H. unfold app.
    destruct (Py.truthy (ss_user_id ss)); cbn [negb].
    - destruct (app_form w (ss_invoice_data ss)) as [[d0 subtotal] disc]. cbn [fst].
      destruct (incomplete_item_exists (Doc.items d0)); [reflexivity|].
      destruct (is_valid_items (Doc.items d0)); cbn [negb]; [|reflexivity].
      cbn. intros [H|H]; discriminate.
    - cbn. intros [H|H]; discriminate. }
  rewrite Hd. split; [reflexivity|]. split; [reflexivity|].
  unfold app_form. destruct (item_loop _ _ _ _) as [items' s']. cbn [fst].
  destruct (w_client w); now repeat split.
Qed.

End GeneratedStores.

(** * The buttons of the form *)

(** X14: the add and remove buttons never leave the form without an item
    row and touch only the end of the list: the rows before the last stay,
    the length changes by at most one, and add and remove together give
    the list back. *)
Theorem item_buttons_keep_a_row add remove items :
  items <> [] ->
  item_buttons add remove items <> []
  /\ firstn (List.length items - 1) (item_buttons add remove items)
     = firstn (List.length items - 1) items
  /\ (List.length items - 1 <= List.length (item_buttons add remove items)
      <= List.length items + 1)%nat
  /\ (add = true -> remove = true -> item_buttons add remove items = items)
  /\ (List.length items = 1%nat -> add = false -> item_buttons add remove items = items).
Proof.
  intros Hne. unfold item_buttons.
  destruct (exists_last Hne) as (front & last & ->).
  rewrite length_app. cbn [List.length].
  replace (List.length front + 1 - 1)%nat with (List.length front) by lia.
  destruct add, remove.
  - rewrite !length_app. cbn [List.length].
    destruct (Nat.ltb_spec 1 (List.length front + 1 + 1)); [|lia].
    rewrite removelast_last.
    split; [now destruct front|]. split; [reflexivity|].
    split; [rewrite length_app; cbn; lia|]. split; [reflexivity | discriminate].
  - rewrite !length_app. cbn [List.length].
    destruct (Nat.ltb_spec 1 (List.length front + 1 + 1)); [|lia].
    split; [now destruct front|].
    split; [now rewrite <- app_assoc, !firstn_app, !firstn_all, Nat.sub_diag|].
    split; [rewrite !length_app; cbn; lia|]. split; discriminate.
  - rewrite !length_app. cbn [List.length].
    destruct (Nat.ltb_spec 1 (List.length front + 1)) as [Hlt|Hge].
    + rewrite removelast_last.
      split; [destruct front; [cbn in Hlt; lia | discriminate]|].
      split; [now rewrite firstn_app, firstn_all, Nat.sub_diag, app_nil_r|].
      split; [lia|]. split; [discriminate|]. intros H1. lia.
    + split; [now destruct front|]. split; [reflexivity|].
      split; [rewrite length_app; cbn; lia|]. split; [discriminate | reflexivity].
  - destruct (1 <? List.length (front ++ [last]))%nat;
      (split; [now destruct front|]; split; [reflexivity|];
       split; [rewrite length_app; cbn; lia|]; split; [discriminate | reflexivity]).
Qed.

Lemma item_buttons_not_nil add remove items :
  items <> [] -> item_buttons add remove items <> [].
Proof.
  intros Hne. unfold item_buttons.
  destruct add.
  - destruct (Nat.ltb_spec 1 (List.length (items ++ [new_item]))) as [Hlt|Hge].
    + destruct remove; [rewrite removelast_last; exact Hne | now destruct items].
    + now destruct items.
  - destruct (Nat.ltb_spec 1 (List.length items)) as [Hlt|Hge]; [|exact Hne].
    destruct remove; [|exact Hne].
    destruct items as [|a [|b items]]; cbn in Hlt; try lia. discriminate.
Qed.

Lemma app_form_buttons_eq add remove w d :
  app_form_buttons add remove w d
  = app_form w (Doc.set_items (item_buttons add remove (Doc.items d)) d).
Proof.
  unfold app_form_buttons, app_form. destruct (w_client w); reflexivity.
Qed.

Lemma app_form_items_length w d :
  List.length (Doc.items (fst (fst (app_form w d)))) = List.length (Doc.items d).
Proof.
  unfold app_form.
  set (d1 := match w_client w with Some c => _ | None => _ end).
  pose proof (item_loop_spec w (Doc.items d1) 0%nat (Py.Int 0)) as H. cbn zeta in H.
  destruct (item_loop w 0 (Doc.items d1) (Py.Int 0)) as [items' s'].
  cbn [fst snd] in *. destruct H as (_ & _ & Hlen & _).
  cbn [Doc.items Doc.set_items]. rewrite Hlen.
  subst d1. now destruct (w_client w).
Qed.

Section ScriptProperties.
Context {json : Json}.

(** The generation block of [script] is the one of [app]. *)
Lemma generate_block_app w now user_id d db :
  Py.truthy user_id = true ->
  let R := app w now {| ss_user_id := user_id; ss_invoice_data := d |} db in
  generate_block now user_id (app_form w d) db
  = (ss_invoice_data (run_session R), run_db R, run_outcome R).
Proof.
  intros Huser. cbn zeta. unfold generate_block, app. cbn [ss_user_id ss_invoice_data].
  rewrite Huser. cbn [negb].
  destruct (app_form w d) as [[d0 subtotal] disc].
  destruct (incomplete_item_exists (Doc.items d0)); [reflexivity|].
  destruct (is_valid_items (Doc.items d0)); reflexivity.
Qed.

Lemma load_and_list_db i bs db shown :
  sr_db (load_and_list i bs db shown) = db
  /\ sr_generation (load_and_list i bs db shown) = shown.
Proof.
  unfold load_and_list.
  destruct (in_load_button i && Py.truthy (in_load_invoice_no i)); [|now split].
  destruct (get_full_invoice_data db (in_load_invoice_no i) (in_user_id i)) as [[d|]|e];
    now split.
Qed.

(** What a run does to the store, by how its generation block ended. *)
Lemma script_store i bs db :
  let r := script i bs db in
  (sr_db r = db /\ forall no, sr_generation r <> Some (Generated no))
  \/ (exists w d no,
        in_generate i = true
        /\ Py.truthy (in_user_id i) = true
        /\ let R := app w (in_now i)
                      {| ss_user_id := in_user_id i; ss_invoice_data := d |} db in
           run_outcome R = Generated no
           /\ sr_db r = run_db R
           /\ sr_generation r = Some (Generated no)).
Proof.
  cbn zeta. unfold script.
  destruct (Py.truthy (in_user_id i)) eqn:Huser; cbn [negb];
    [|left; split; [reflexivity | discriminate]].
  destruct (url_load i bs db) as [bs1|e]; [|left; split; [reflexivity | discriminate]].
  set (d := match bs_invoice_data bs1 with Some d => d | None => Doc.blank end).
  set (show := if in_client_button i then _ else _).
  destruct (in_generate i) eqn:Hgen.
  - rewrite app_form_buttons_eq.
    set (d' := Doc.set_items _ d).
    pose proof (generate_block_app (form_of i show) (in_now i) (in_user_id i) d' db Huser)
      as Hblock. cbn zeta in Hblock. rewrite Hblock.
    destruct (run_outcome (app _ _ _ db)) as [| | |no] eqn:Hout.
    + left. rewrite (proj1 (load_and_list_db _ _ _ _)), (proj2 (load_and_list_db _ _ _ _)).
      split; [|discriminate]. apply app_rejected. intros no. congruence.
    + left. cbn. split; [|discriminate]. apply app_rejected. intros no. congruence.
    + left. rewrite (proj1 (load_and_list_db _ _ _ _)), (proj2 (load_and_list_db _ _ _ _)).
      split; [|discriminate]. apply app_rejected. intros no. congruence.
    + right. exists (form_of i show), d', no. split; [reflexivity|]. split; [reflexivity|].
      cbn zeta. split; [exact Hout|].
      destruct (get_full_invoice_data _ no (in_user_id i)) as [x|e]; cbn.
      * rewrite (proj1 (load_and_list_db _ _ _ _)), (proj2 (load_and_list_db _ _ _ _)).
        now split.
      * now split.
  - left. rewrite (proj1 (load_and_list_db _ _ _ _)), (proj2 (load_and_list_db _ _ _ _)).
    split; [reflexivity | discriminate].
Qed.

(** The rows a generating run appends. *)
Lemma script_appends i bs db no :
  sr_generation (script i bs db) = Some (Generated no) ->
  no = next_invoice_no db
  /\ exists r0 f0,
       invoices (sr_db (script i bs db)) = invoices db ++ [r0]
       /\ invoices_full (sr_db (script i bs db)) = invoices_full db ++ [f0]
       /\ inv_invoice_no r0 = no /\ full_invoice_no f0 = no
       /\ inv_user_id r0 = in_user_id i /\ full_user_id f0 = in_user_id i.
Proof.
  intros Hno'. pose proof (script_store i bs db) as H. cbn zeta in H.
  destruct H as [[Hdb Hnot] | (w & d & no' & Hgen & Huser & Hout & Hdb & Hshown)].
  - now destruct (Hnot no).
  - assert (no' = no) as -> by congruence.
    destruct (app_generated _ _ _ _ _ Hout)
      as (d0 & subtotal & _ & _ & _ & _ & Hno & _ & Hlog).
    split; [exact Hno|]. rewrite Hdb, Hlog, log_invoice_rows.
    cbn [invoices invoices_full ss_user_id]. eexists _, _. repeat split.
Qed.

(** X15: a run of the script changes the store only by generating a
    document: without the generate button, or when the block ends in a
    warning, the database is the same after the run; when a document is
    generated, one summary row and one full row are appended, under the
    next invoice number and the user id of the run. *)
Theorem script_writes_by_generation_only i bs db :
  let r := script i bs db in
  (in_generate i = false -> sr_db r = db)
  /\ ((forall no, sr_generation r <> Some (Generated no)) -> sr_db r = db)
  /\ (forall no, sr_generation r = Some (Generated no) ->
        no = next_invoice_no db
        /\ exists r0 f0,
             invoices (sr_db r) = invoices db ++ [r0]
             /\ invoices_full (sr_db r) = invoices_full db ++ [f0]
             /\ inv_invoice_no r0 = no /\ full_invoice_no f0 = no
             /\ inv_user_id r0 = in_user_id i /\ full_user_id f0 = in_user_id i).
Proof.
  cbn zeta. pose proof (script_store i bs db) as H. cbn zeta in H.
  split; [|split].
  - destruct H as [[Hdb _] | (w & d & no & Hgen & _)]; [intros _; exact Hdb | congruence].
  - destruct H as [[Hdb _] | (w & d & no & _ & _ & _ & _ & Hshown)]; [intros _; exact Hdb|].
    intros Hnot. now destruct (Hnot no).
  - intros no. apply script_appends.
Qed.

(** A run keeps the rows the store had. *)
Lemma script_keeps_full_rows i bs db f :
  In f (invoices_full db) -> In f (invoices_full (sr_db (script i bs db))).
Proof.
  intros Hin. pose proof (script_store i bs db) as H. cbn zeta in H.
  destruct H as [[Hdb _] | (w & d & no & _ & _ & Hout & Hdb & _)]; rewrite Hdb.
  - exact Hin.
  - destruct (app_generated _ _ _ _ _ Hout) as (d0 & s0 & _ & _ & _ & _ & _ & _ & Hlog).
    rewrite Hlog, log_invoice_rows. cbn [invoices_full]. apply in_or_app. now left.
Qed.

Lemma script_generated i bs db : generated db -> generated (sr_db (script i bs db)).
Proof.
  intros Hgen. pose proof (script_store i bs db) as H. cbn zeta in H.
  destruct H as [[Hdb _] | (w & d & no & _ & _ & Hout & Hdb & _)]; rewrite Hdb.
  - exact Hgen.
  - now apply generated_app with (invoice_no := no).
Qed.

Lemma runs_generated steps : forall bs db, generated db -> generated (snd (runs steps bs db)).
Proof.
  induction steps as [|i steps IH]; intros bs db Hgen; [exact Hgen|].
  cbn [runs]. apply IH. now apply script_generated.
Qed.

(** X16: whatever the inputs of the runs, every store the script reaches
    from an empty database is a store filled by generation: no sequence of
    runs writes a row in any other way. *)
Theorem reachable_stores_are_generated steps bs :
  generated (snd (runs steps bs empty_db)).
Proof. apply runs_generated. constructor. Qed.

End ScriptProperties.

Section SessionProperties.
Context {json : Json}.

(** The row a retrieval read. *)
Lemma get_full_invoice_data_row db invoice_no user_id d :
  get_full_invoice_data db invoice_no user_id = Returns (Some d) ->
  exists f, In f (invoices_full db)
            /\ full_invoice_no f = invoice_no /\ full_user_id f = user_id
            /\ json_loads (full_invoice_json f) = Some d.
Proof.
  unfold get_full_invoice_data. cbn [get_conn pending].
  pose proof (find_full_row db invoice_no user_id) as Hfind.
  destruct (find _ _) as [f|]; [|discriminate].
  destruct Hfind as (Hin & Hno & Hu).
  destruct (json_loads (full_invoice_json f)) as [d'|] eqn:Hd; [|discriminate].
  intros [= <-]. now exists f.
Qed.

Lemma url_load_cases i bs db bs1 :
  url_load i bs db = Returns bs1 ->
  bs1 = bs
  \/ exists no d,
       in_query_invoice_no i = Some no /\ bs_loaded bs = false
       /\ get_full_invoice_data db no (in_user_id i) = Returns (Some d)
       /\ bs1 = set_bs_loaded (set_bs_invoice_data d bs).
Proof.
  unfold url_load.
  destruct (in_query_invoice_no i) as [no|]; [|intros [= <-]; now left].
  destruct (bs_loaded bs) eqn:Hl; cbn [negb]; [intros [= <-]; now left|].
  destruct (get_full_invoice_data db no (in_user_id i)) as [[d|]|e] eqn:Hget;
    [|intros [= <-]; now left | discriminate].
  intros [= <-]. right. now exists no, d.
Qed.

Lemma load_and_list_cases i bs db shown :
  let r := load_and_list i bs db shown in
  (sr_session r = bs
   /\ (sr_ending r = Finished
       /\ sr_listing r = Some (get_invoices_from_db db (in_user_id i))
       \/ (exists e, sr_ending r = Crashed e) /\ sr_listing r = None))
  \/ (exists d,
        get_full_invoice_data db (in_load_invoice_no i) (in_user_id i) = Returns (Some d)
        /\ sr_session r = set_bs_invoice_data d bs
        /\ sr_ending r = Rerun /\ sr_listing r = None).
Proof.
  cbn zeta. unfold load_and_list.
  destruct (in_load_button i && Py.truthy (in_load_invoice_no i));
    [|left; split; [reflexivity | left; now split]].
  destruct (get_full_invoice_data db (in_load_invoice_no i) (in_user_id i)) as [[d|]|e].
  - right. now exists d.
  - left. split; [reflexivity | left; now split].
  - left. split; [reflexivity | right; split; [now exists e | reflexivity]].
Qed.

(** The whole run, case by case: where it ended, with which draft. *)
Lemma script_cases i bs db :
  let r := script i bs db in
  (sr_session r = bs /\ sr_db r = db /\ sr_listing r = None /\ sr_generation r = None
   /\ (sr_ending r = Stopped \/ exists e, sr_ending r = Crashed e))
  \/ exists bs1 d0 formed d1 db1 last,
       url_load i bs db = Returns bs1
       /\ d0 = match bs_invoice_data bs1 with Some d => d | None => Doc.blank end
       /\ formed = fst (fst (app_form_buttons (in_add_item i) (in_remove_item i)
                               (form_of i (bs_show_client_details
                                             (sr_session r))) d0))
       /\ Doc.items d1 = Doc.items formed
       /\ sr_db r = db1
       /\ Py.truthy (in_user_id i) = true
       /\ let bs2 :=
            {| bs_invoice_data := Some d1;
               bs_loaded := bs_loaded bs1;
               bs_show_client_details := bs_show_client_details (sr_session r);
               bs_last_invoice_info := last |} in
          (sr_session r = bs2
           /\ (sr_ending r = Stopped \/ (exists e, sr_ending r = Crashed e)
               \/ sr_ending r = Finished
                  /\ sr_listing r = Some (get_invoices_from_db db1 (in_user_id i))))
          \/ (exists d,
                get_full_invoice_data db1 (in_load_invoice_no i) (in_user_id i)
                = Returns (Some d)
                /\ sr_session r = set_bs_invoice_data d bs2
                /\ sr_ending r = Rerun /\ sr_listing r = None).
Proof.
  cbn zeta. unfold script.
  destruct (Py.truthy (in_user_id i)) eqn:Huser; cbn [negb];
    [|left; repeat split; now left].
  destruct (url_load i bs db) as [bs1|e] eqn:Hurl;
    [|left; repeat split; right; now exists e].
  right.
  set (d0 := match bs_invoice_data bs1 with Some d => d | None => Doc.blank end).
  set (show := if in_client_button i then _ else _).
  set (formed := app_form_buttons _ _ _ d0).
  destruct (in_generate i).
  - pose proof (generate_block_app (form_of i show) (in_now i) (in_user_id i)
                  (Doc.set_items (item_buttons (in_add_item i) (in_remove_item i)
                                    (Doc.items d0)) d0) db Huser) as Hblock.
    cbn zeta in Hblock. rewrite <- app_form_buttons_eq in Hblock. fold formed in Hblock.
    rewrite Hblock.
    set (R := app _ _ _ db) in *.
    assert (Hitems : Doc.items (ss_invoice_data (run_session R)) = Doc.items (fst (fst formed))).
    { pose proof (f_equal (fun x => fst (fst x)) Hblock) as Hd. cbn [fst] in Hd.
      rewrite <- Hd. unfold generate_block.
      destruct formed as [[df sf] disc]. cbn [fst].
      destruct (incomplete_item_exists (Doc.items df)); [reflexivity|].
      destruct (is_valid_items (Doc.items df)); reflexivity. }
    destruct (run_outcome R) as [| | |no] eqn:Hout.
    + pose proof (load_and_list_cases i
                    (set_bs_last_invoice_info None
                       (set_bs_invoice_data (ss_invoice_data (run_session R))
                          (set_bs_show_client_details show bs1)))
                    (run_db R) (Some UserIdMissing)) as Hll.
      cbn zeta in Hll.
      destruct (load_and_list_db i
                  (set_bs_last_invoice_info None
                     (set_bs_invoice_data (ss_invoice_data (run_session R))
                        (set_bs_show_client_details show bs1)))
                  (run_db R) (Some UserIdMissing)) as [Hdb _].
      destruct Hll as [(Hs & Hend) | (d & Hget & Hs & Hend & Hl)].
      * exists bs1, d0, (fst (fst formed)), (ss_invoice_data (run_session R)), (run_db R), None.
        rewrite Hs. cbn. repeat split; try assumption; try reflexivity.
        left. split; [reflexivity|].
        destruct Hend as [[He Hl] | [He Hl]]; [right; right; now split | right; now left].
      * exists bs1, d0, (fst (fst formed)), (ss_invoice_data (run_session R)), (run_db R), None.
        rewrite Hs. cbn. repeat split; try assumption; try reflexivity.
        right. exists d. now repeat split.
    + exists bs1, d0, (fst (fst formed)), (ss_invoice_data (run_session R)), (run_db R), None.
      cbn. repeat split; try assumption; try reflexivity.
      left. split; [reflexivity | now left].
    + pose proof (load_and_list_cases i
                    (set_bs_last_invoice_info None
                       (set_bs_invoice_data (ss_invoice_data (run_session R))
                          (set_bs_show_client_details show bs1)))
                    (run_db R) (Some ValidationWarning)) as Hll.
      cbn zeta in Hll.
      destruct (load_and_list_db i
                  (set_bs_last_invoice_info None
                     (set_bs_invoice_data (ss_invoice_data (run_session R))
                        (set_bs_show_client_details show bs1)))
                  (run_db R) (Some ValidationWarning)) as [Hdb _].
      destruct Hll as [(Hs & Hend) | (d & Hget & Hs & Hend & Hl)].
      * exists bs1, d0, (fst (fst formed)), (ss_invoice_data (run_session R)), (run_db R), None.
        rewrite Hs. cbn. repeat split; try assumption; try reflexivity.
        left. split; [reflexivity|].
        destruct Hend as [[He Hl] | [He Hl]]; [right; right; now split | right; now left].
      * exists bs1, d0, (fst (fst formed)), (ss_invoice_data (run_session R)), (run_db R), None.
        rewrite Hs. cbn. repeat split; try assumption; try reflexivity.
        right. exists d. now repeat split.
    + destruct (get_full_invoice_data (run_db R) no (in_user_id i)) as [x|e].
      * pose proof (load_and_list_cases i
                      (set_bs_last_invoice_info (Some no)
                         (set_bs_invoice_data (ss_invoice_data (run_session R))
                            (set_bs_show_client_details show bs1)))
                      (run_db R) (Some (Generated no))) as Hll.
        cbn zeta in Hll.
        destruct (load_and_list_db i
                    (set_bs_last_invoice_info (Some no)
                       (set_bs_invoice_data (ss_invoice_data (run_session R))
                          (set_bs_show_client_details show bs1)))
                    (run_db R) (Some (Generated no))) as [Hdb _].
        destruct Hll as [(Hs & Hend) | (d & Hget & Hs & Hend & Hl)].
        -- exists bs1, d0, (fst (fst formed)), (ss_invoice_data (run_session R)),
             (run_db R), (Some no).
           rewrite Hs. cbn. repeat split; try assumption; try reflexivity.
           left. split; [reflexivity|].
           destruct Hend as [[He Hl] | [He Hl]]; [right; right; now split | right; now left].
        -- exists bs1, d0, (fst (fst formed)), (ss_invoice_data (run_session R)),
             (run_db R), (Some no).
           rewrite Hs. cbn. repeat split; try assumption; try reflexivity.
           right. exists d. now repeat split.
      * exists bs1, d0, (fst (fst formed)), (ss_invoice_data (run_session R)),
          (run_db R), (bs_last_invoice_info bs1).
        cbn. repeat split; try assumption; try reflexivity.
        left. split; [reflexivity|]. right. left. now exists e.
  - pose proof (load_and_list_cases i
                  (set_bs_invoice_data (fst (fst formed))
                     (set_bs_show_client_details show bs1)) db None) as Hll.
    cbn zeta in Hll.
    destruct (load_and_list_db i
                (set_bs_invoice_data (fst (fst formed))
                   (set_bs_show_client_details show bs1)) db None) as [Hdb _].
    destruct Hll as [(Hs & Hend) | (d & Hget & Hs & Hend & Hl)].
    + exists bs1, d0, (fst (fst formed)), (fst (fst formed)), db, (bs_last_invoice_info bs1).
      rewrite Hs. cbn. repeat split; try assumption; try reflexivity.
      left. split; [reflexivity|].
      destruct Hend as [[He Hl] | [He Hl]]; [right; right; now split | right; now left].
    + exists bs1, d0, (fst (fst formed)), (fst (fst formed)), db, (bs_last_invoice_info bs1).
      rewrite Hs. cbn. repeat split; try assumption; try reflexivity.
      right. exists d. now repeat split.
Qed.

(** X17: the draft never loses its last item row: if the draft of the
    session has an item row (or there is no draft yet), and the stored
    documents have one, then the draft after the run has one, whatever the
    buttons and inputs of the run. *)
Theorem script_keeps_an_item_row i bs db :
  has_item_row bs ->
  (forall f d, In f (invoices_full (sr_db (script i bs db))) ->
               json_loads (full_invoice_json f) = Some d -> Doc.items d <> []) ->
  has_item_row (sr_session (script i bs db)).
Proof.
  intros Hbs Hstore. pose proof (script_cases i bs db) as H. cbn zeta in H.
  destruct H as [(Hs & _) | (bs1 & d0 & formed & d1 & db1 & last & Hurl & Hd0 & Hformed
                             & Hitems & Hdb & _ & Hend)].
  - now rewrite Hs.
  - assert (H0 : Doc.items d0 <> []).
    { subst d0. destruct (url_load_cases _ _ _ _ Hurl) as [-> | (no & d & _ & _ & Hget & ->)].
      - destruct (bs_invoice_data bs) as [d|] eqn:Hd; [now apply Hbs | discriminate].
      - cbn. destruct (get_full_invoice_data_row _ _ _ _ Hget) as (f & Hin & _ & _ & Hdec).
        apply (Hstore f d); [now apply script_keeps_full_rows | exact Hdec]. }
    assert (H1 : Doc.items d1 <> []).
    { rewrite Hitems, Hformed, app_form_buttons_eq.
      pose proof (app_form_items_length
                    (form_of i (bs_show_client_details (sr_session (script i bs db))))
                    (Doc.set_items (item_buttons (in_add_item i) (in_remove_item i)
                                      (Doc.items d0)) d0)) as Hlen.
      cbn [Doc.items Doc.set_items] in Hlen.
      pose proof (item_buttons_not_nil (in_add_item i) (in_remove_item i) _ H0) as Hb.
      intros Hnil. rewrite Hnil in Hlen. cbn in Hlen.
      destruct (item_buttons _ _ (Doc.items d0)); [congruence | discriminate]. }
    destruct Hend as [(Hs & _) | (d & Hget & Hs & _)]; rewrite Hs.
    + intros d [= <-]. exact H1.
    + intros d' [= <-]. rewrite <- Hdb in Hget.
      destruct (get_full_invoice_data_row _ _ _ _ Hget) as (f & Hin & _ & _ & Hdec).
      exact (Hstore f d Hin Hdec).
Qed.

(** X18: a document comes into the draft from the store only if a full row
    carries the user id of the run and the requested number: a run that
    ends by loading (the load button) holds the decoded text of such a row
    as its draft, and the URL parameter marks the session as loaded only
    when such a row exists. *)
Theorem loaded_document_belongs_to_user i bs db :
  let r := script i bs db in
  (sr_ending r = Rerun ->
   exists f, In f (invoices_full (sr_db r))
             /\ full_user_id f = in_user_id i
             /\ full_invoice_no f = in_load_invoice_no i
             /\ json_loads (full_invoice_json f) = bs_invoice_data (sr_session r))
  /\ (bs_loaded bs = false -> bs_loaded (sr_session r) = true ->
      exists no f, in_query_invoice_no i = Some no
                   /\ In f (invoices_full db)
                   /\ full_user_id f = in_user_id i
                   /\ full_invoice_no f = no
                   /\ json_loads (full_invoice_json f) <> None).
Proof.
  cbn zeta. pose proof (script_cases i bs db) as H. cbn zeta in H.
  destruct H as [(Hs & _ & _ & _ & Hend)
                | (bs1 & d0 & formed & d1 & db1 & last & Hurl & _ & _ & _ & Hdb & _ & Hend)].
  - split.
    + intros Hr. rewrite Hr in Hend. destruct Hend as [|[e]]; discriminate.
    + rewrite Hs. congruence.
  - assert (Hurl' : bs_loaded bs = false -> bs_loaded bs1 = true ->
              exists no f, in_query_invoice_no i = Some no
                           /\ In f (invoices_full db)
                           /\ full_user_id f = in_user_id i
                           /\ full_invoice_no f = no
                           /\ json_loads (full_invoice_json f) <> None).
    { intros Hl Hl1.
      destruct (url_load_cases _ _ _ _ Hurl) as [-> | (no & d & Hq & _ & Hget & _)];
        [congruence|].
      destruct (get_full_invoice_data_row _ _ _ _ Hget) as (f & Hin & Hno & Hu & Hdec).
      exists no, f. repeat split; try assumption. congruence. }
    destruct Hend as [(Hs & Hend) | (d & Hget & Hs & Hend & _)]; rewrite Hs.
    + split; [|exact Hurl'].
      intros Hr. rewrite Hr in Hend.
      destruct Hend as [|[[e]|[]]]; discriminate.
    + split; [|exact Hurl'].
      intros _. rewrite <- Hdb in Hget.
      destruct (get_full_invoice_data_row _ _ _ _ Hget) as (f & Hin & Hno & Hu & Hdec).
      exists f. now repeat split.
Qed.

(** X19: the listing a run shows is the listing of the store as the run
    leaves it, for the user id of the run: it holds rows of this user only,
    and a document generated in the run is already in it. *)
Theorem listing_of_a_run i bs db rows :
  sr_listing (script i bs db) = Some rows ->
  rows = get_invoices_from_db (sr_db (script i bs db)) (in_user_id i)
  /\ sr_ending (script i bs db) = Finished
  /\ Forall (fun r => inv_user_id r = in_user_id i) rows
  /\ forall no, sr_generation (script i bs db) = Some (Generated no) ->
       exists r0, In r0 rows /\ inv_invoice_no r0 = no.
Proof.
  intros Hrows. pose proof (script_cases i bs db) as H. cbn zeta in H.
  assert (Hl : rows = get_invoices_from_db (sr_db (script i bs db)) (in_user_id i)
               /\ sr_ending (script i bs db) = Finished).
  { destruct H as [(_ & _ & Hl & _)
                  | (bs1 & d0 & formed & d1 & db1 & last & _ & _ & _ & _ & Hdb & _ & Hend)];
      [congruence|].
    destruct Hend as [(_ & [Hst | [[e He] | [Hf Hl]]]) | (d & _ & _ & _ & Hl)].
    - exfalso. revert Hst Hrows. unfold script.
      destruct (Py.truthy (in_user_id i)); cbn [negb]; [|discriminate].
      destruct (url_load i bs db); [|discriminate].
      destruct (in_generate i).
      + destruct (generate_block _ _ _ _) as [[dd dbb] [| | |no]]; cbn;
          try discriminate;
          try (destruct (get_full_invoice_data dbb no (in_user_id i)); [|discriminate]);
          unfold load_and_list;
          destruct (in_load_button i && Py.truthy (in_load_invoice_no i));
          try discriminate;
          destruct (get_full_invoice_data dbb (in_load_invoice_no i) (in_user_id i))
            as [[?|]|?]; discriminate.
      + unfold load_and_list.
        destruct (in_load_button i && Py.truthy (in_load_invoice_no i));
          try discriminate.
        destruct (get_full_invoice_data db (in_load_invoice_no i) (in_user_id i))
          as [[?|]|?]; discriminate.
    - exfalso. revert He Hrows. unfold script.
      destruct (Py.truthy (in_user_id i)); cbn [negb]; [|discriminate].
      destruct (url_load i bs db); [|discriminate].
      destruct (in_generate i).
      + destruct (generate_block _ _ _ _) as [[dd dbb] [| | |no]]; cbn;
          try discriminate;
          try (destruct (get_full_invoice_data dbb no (in_user_id i)); [|discriminate]);
          unfold load_and_list;
          destruct (in_load_button i && Py.truthy (in_load_invoice_no i));
          try discriminate;
          destruct (get_full_invoice_data dbb (in_load_invoice_no i) (in_user_id i))
            as [[?|]|?]; discriminate.
      + unfold load_and_list.
        destruct (in_load_button i && Py.truthy (in_load_invoice_no i));
          try discriminate.
        destruct (get_full_invoice_data db (in_load_invoice_no i) (in_user_id i))
          as [[?|]|?]; discriminate.
    - split; [|exact Hf]. rewrite Hdb. congruence.
    - congruence. }
  destruct Hl as [Hl Hfin]. split; [exact Hl|]. split; [exact Hfin|].
  assert (Hown : forall r, In r rows <->
                   In r (invoices (sr_db (script i bs db))) /\ inv_user_id r = in_user_id i).
  { intros r. rewrite Hl. unfold get_invoices_from_db. cbn [get_conn pending].
    rewrite filter_In. now rewrite String.eqb_eq. }
  split.
  - apply Forall_forall. intros r Hr. now apply Hown in Hr.
  - intros no Hno. destruct (script_appends i bs db no Hno)
      as (_ & r0 & f0 & Hr0 & _ & Hn & _ & Hu & _).
    exists r0. split; [|exact Hn]. apply Hown. split; [|exact Hu].
    rewrite Hr0. apply in_or_app. right. now left.
Qed.



End SessionProperties.

(** * [init_db] *)

Lemma has_user_id_app (columns extra : list string) :
  Schema.has_user_id (columns ++ extra)
  = Schema.has_user_id columns || Schema.has_user_id extra.
Proof. unfold Schema.has_user_id. apply existsb_app. Qed.

Lemma add_column_user_id (columns columns' : list string) :
  Schema.add_column "user_id" columns = Some columns' ->
  columns' = columns ++ ["user_id"] /\ Schema.has_user_id columns' = true.
Proof.
  unfold Schema.add_column.
  destruct (existsb (Schema.same_column "user_id") columns); [discriminate|].
  intros [= <-]. split; [reflexivity|].
  rewrite has_user_id_app. cbn. now rewrite orb_true_r.
Qed.

(** What [init_db] does to one table that it alters when [user_id] is
    missing. *)
Lemma migrate_cases (columns : list string) :
  match (if Schema.has_user_id columns then Some columns
         else Schema.add_column "user_id" columns) with
  | Some columns' =>
      Schema.has_user_id columns' = true
      /\ columns' = (if Schema.has_user_id columns then columns
                     else columns ++ ["user_id"])
  | None => Schema.has_user_id columns = false
  end.
Proof.
  destruct (Schema.has_user_id columns) eqn:H; [now split|].
  destruct (Schema.add_column "user_id" columns) as [columns'|] eqn:Hadd; [|reflexivity].
  destruct (add_column_user_id _ _ Hadd) as [-> Hhas]. now split.
Qed.

(** X21: after [init_db] the three tables exist, whether it raised or not;
    when it did not raise, [invoices] and [invoices_full] both have a
    [user_id] column. *)
Theorem init_db_tables (s : Schema.t) :
  (exists i f c, fst (Schema.init_db s) = Schema.tables i f c)
  /\ (snd (Schema.init_db s) = None ->
      exists i f c, fst (Schema.init_db s) = Schema.tables i f c
                    /\ Schema.has_user_id i = true /\ Schema.has_user_id f = true).
Proof.
  unfold Schema.init_db.
  set (i := Schema.create_table_if_not_exists _ (Schema.invoices_table s)).
  set (f := Schema.create_table_if_not_exists _ (Schema.invoices_full_table s)).
  set (c := Schema.create_table_if_not_exists _ (Schema.clients_table s)).
  pose proof (migrate_cases i) as Hi.
  destruct (if Schema.has_user_id i then Some i else Schema.add_column "user_id" i)
    as [i'|]; cbn [fst snd]; [|split; [now eexists _, _, _ | discriminate]].
  destruct Hi as [Hi _].
  destruct (Schema.has_user_id f) eqn:Hf; cbn [fst snd].
  - split; [now eexists _, _, _|]. intros _. now exists i', f, c.
  - destruct (Schema.add_column "user_id" f) as [f'|] eqn:Haf; cbn [fst snd];
      [|split; [now eexists _, _, _ | discriminate]].
    destruct (add_column_user_id _ _ Haf) as [_ Hf'].
    destruct (Schema.add_column "user_id" c) as [c'|]; cbn [fst snd];
      [|split; [now eexists _, _, _ | discriminate]].
    split; [now eexists _, _, _|]. intros _. now exists i', f', c'.
Qed.

Lemma init_db_fixed (i f c : list string) :
  Schema.has_user_id i = true -> Schema.has_user_id f = true ->
  Schema.init_db (Schema.tables i f c) = (Schema.tables i f c, None).
Proof.
  intros Hi Hf. unfold Schema.init_db.
  cbn [Schema.tables Schema.invoices_table Schema.invoices_full_table
         Schema.clients_table Schema.create_table_if_not_exists].
  now rewrite Hi, Hf.
Qed.

(** X22: [init_db] is idempotent: when it did not raise, running it again
    on the database it left does not raise and changes nothing. *)
Theorem init_db_again (s : Schema.t) :
  snd (Schema.init_db s) = None ->
  Schema.init_db (fst (Schema.init_db s)) = (fst (Schema.init_db s), None).
Proof.
  intros Hok. destruct (init_db_tables s) as [_ H].
  destruct (H Hok) as (i & f & c & -> & Hi & Hf). now apply init_db_fixed.
Qed.

Lemma init_db_columns (s : Schema.t) :
  let i := Schema.create_table_if_not_exists Schema.invoices_columns
             (Schema.invoices_table s) in
  let f := Schema.create_table_if_not_exists Schema.invoices_full_columns
             (Schema.invoices_full_table s) in
  let c := Schema.create_table_if_not_exists Schema.clients_columns
             (Schema.clients_table s) in
  exists xi xf xc,
    fst (Schema.init_db s) = Schema.tables (i ++ xi) (f ++ xf) (c ++ xc)
    /\ (xi = [] \/ xi = ["user_id"] /\ Schema.has_user_id i = false)
    /\ (xf = [] \/ xf = ["user_id"] /\ Schema.has_user_id f = false)
    /\ (xc = [] \/ xc = ["user_id"] /\ Schema.has_user_id f = false)
    /\ (snd (Schema.init_db s) = None ->
        xc = if Schema.has_user_id f then [] else ["user_id"]).
Proof.
  cbn zeta. unfold Schema.init_db.
  set (i := Schema.create_table_if_not_exists _ (Schema.invoices_table s)).
  set (f := Schema.create_table_if_not_exists _ (Schema.invoices_full_table s)).
  set (c := Schema.create_table_if_not_exists _ (Schema.clients_table s)).
  pose proof (migrate_cases i) as Hi.
  destruct (if Schema.has_user_id i then Some i else Schema.add_column "user_id" i)
    as [i'|]; cbn [fst snd].
  - destruct Hi as [_ ->].
    assert (Hxi : exists xi, (if Schema.has_user_id i then i else i ++ ["user_id"]) = i ++ xi
                             /\ (xi = [] \/ xi = ["user_id"] /\ Schema.has_user_id i = false)).
    { destruct (Schema.has_user_id i); [exists []; rewrite app_nil_r; now split; [|left]|].
      exists ["user_id"]. split; [reflexivity | now right]. }
    destruct Hxi as (xi & -> & Hxi).
    destruct (Schema.has_user_id f) eqn:Hf; cbn [fst snd].
    + exists xi, [], []. rewrite !app_nil_r. repeat split; auto.
    + destruct (Schema.add_column "user_id" f) as [f'|] eqn:Haf; cbn [fst snd].
      * destruct (add_column_user_id _ _ Haf) as [-> _].
        destruct (Schema.add_column "user_id" c) as [c'|] eqn:Hac; cbn [fst snd].
        -- destruct (add_column_user_id _ _ Hac) as [-> _].
           exists xi, ["user_id"], ["user_id"]. repeat split; auto.
        -- exists xi, ["user_id"], []. rewrite !app_nil_r.
           repeat split; auto. discriminate.
      * exists xi, [], []. rewrite !app_nil_r. repeat split; auto. discriminate.
  - exists [], [], []. rewrite !app_nil_r. repeat split; auto. discriminate.
Qed.

(** X23: [init_db] never drops or renames a column: every table that
    existed keeps its columns in their order, with at most [user_id] added
    at the end, also when a statement raised. *)
Theorem init_db_keeps_columns (s : Schema.t) (columns : list string) :
  (Schema.invoices_table s = Some columns ->
   exists extra, Schema.invoices_table (fst (Schema.init_db s)) = Some (columns ++ extra)
                 /\ (extra = [] \/ extra = ["user_id"]))
  /\ (Schema.invoices_full_table s = Some columns ->
      exists extra, Schema.invoices_full_table (fst (Schema.init_db s))
                    = Some (columns ++ extra)
                    /\ (extra = [] \/ extra = ["user_id"]))
  /\ (Schema.clients_table s = Some columns ->
      exists extra, Schema.clients_table (fst (Schema.init_db s)) = Some (columns ++ extra)
                    /\ (extra = [] \/ extra = ["user_id"])).
Proof.
  pose proof (init_db_columns s) as H. cbn zeta in H.
  destruct H as (xi & xf & xc & -> & Hxi & Hxf & Hxc & _).
  cbn [Schema.tables Schema.invoices_table Schema.invoices_full_table Schema.clients_table].
  split; [|split]; intros ->; cbn [Schema.create_table_if_not_exists]; eexists;
    (split; [reflexivity|]); tauto.
Qed.


(* ===================================================================== *)
(** * Closed examples of the further properties *)
(* ===================================================================== *)

Lemma logged_db_0007_0003 : logged (json := SexpCodec.codec) Ex.db_0007_0003.
Proof. unfold Ex.db_0007_0003, Ex.db_0007. repeat constructor. Qed.

Lemma in_full_row_1 : In Ex2.full_row_1 (invoices_full Ex.db2).
Proof. vm_compute. left. reflexivity. Qed.

(** X3 at the store holding "0007" and "0003". *)
Lemma tables_of_0007_0003_in_step :
  logged (json := SexpCodec.codec) Ex.db_0007_0003
  /\ List.length (invoices_full Ex.db_0007_0003) = List.length (invoices Ex.db_0007_0003).
Proof.
  split; [exact logged_db_0007_0003|].
  exact (proj1 (logged_tables_in_step (json := SexpCodec.codec) Ex.db_0007_0003
                  logged_db_0007_0003)).
Defined.

(** X5: storing "0001" again for shop-1 leaves what shop-1 reads under
    "0001", and what shop-2 reads. *)
Lemma retrieval_after_second_0001 :
  get_full_invoice_data (json := SexpCodec.codec) Ex.db_twice "0001" "shop-2"
  = get_full_invoice_data (json := SexpCodec.codec) Ex.db1 "0001" "shop-2".
Proof.
  unfold Ex.db_twice.
  apply (retrieval_after_log_invoice (json := SexpCodec.codec)).
  right. left. discriminate.
Defined.

(** X6 at the store holding "0007" and "0003". *)
Lemma listing_of_0007_0003_in_order :
  logged (json := SexpCodec.codec) Ex.db_0007_0003
  /\ StronglySorted (fun a b => inv_id a < inv_id b)
       (get_invoices_from_db Ex.db_0007_0003 "shop-1").
Proof.
  split; [exact logged_db_0007_0003|].
  exact (listing_in_order_of_storing (json := SexpCodec.codec) Ex.db_0007_0003 "shop-1"
           logged_db_0007_0003).
Defined.

(** X7 after two generated documents: the next number is "0003". *)
Lemma numbers_of_db2_run_on :
  generated (json := SexpCodec.codec) Ex.db2
  /\ next_invoice_no Ex.db2
     = Py.format_04d (Z.of_nat (List.length (invoices Ex.db2)) + 1).
Proof.
  split; [exact generated_db2|].
  exact (proj2 (generated_numbers_run_on (json := SexpCodec.codec) Ex.db2 generated_db2)).
Defined.

(** X8 after two generated documents. *)
Lemma numbers_of_db2_distinct :
  generated (json := SexpCodec.codec) Ex.db2
  /\ NoDup (map inv_invoice_no (invoices Ex.db2)).
Proof.
  split; [exact generated_db2|].
  exact (proj1 (generated_numbers_distinct (json := SexpCodec.codec) Ex.db2 generated_db2)).
Defined.

(** X9 at the first full row of the store after two generated documents. *)
Lemma full_row_1_retrievable :
  In Ex2.full_row_1 (invoices_full Ex.db2)
  /\ get_full_invoice_data (json := SexpCodec.codec) Ex.db2
       (full_invoice_no Ex2.full_row_1) (full_user_id Ex2.full_row_1)
     = match json_loads (Json := SexpCodec.codec) (full_invoice_json Ex2.full_row_1) with
       | Some d => Returns (Some d)
       | None => Raises JSONDecodeError
       end.
Proof.
  split; [exact in_full_row_1|].
  exact (generated_rows_retrievable (json := SexpCodec.codec) Ex.db2 Ex2.full_row_1
           generated_db2 in_full_row_1).
Defined.

(** X10 at the first full row of the store after two generated documents. *)
Lemma full_row_1_has_owner : full_user_id Ex2.full_row_1 <> "".
Proof.
  exact (proj2 (generated_rows_have_owner (json := SexpCodec.codec) Ex.db2 generated_db2)
           Ex2.full_row_1 in_full_row_1).
Defined.

(** X11 at the first full row of the store after two generated documents. *)
Lemma full_row_1_well_formed :
  exists d, full_invoice_json Ex2.full_row_1 = json_dumps (Json := SexpCodec.codec) d
            /\ well_formed d.
Proof.
  exact (stored_documents_well_formed (json := SexpCodec.codec) Ex.db2 Ex2.full_row_1
           generated_db2 in_full_row_1).
Defined.

(** X12 after two generated documents. *)
Lemma summary_rows_of_db2_project :
  Forall2 (fun r f => same_key r f
                      /\ exists d, full_invoice_json f = json_dumps (Json := SexpCodec.codec) d
                                   /\ summary_of d r)
    (invoices Ex.db2) (invoices_full Ex.db2).
Proof.
  exact (summary_rows_project_documents (json := SexpCodec.codec) Ex.db2 generated_db2).
Defined.

(** X13 at a run stopped by the incomplete-item warning: the draft keeps
    the number it was loaded with. *)
Lemma rejected_run_keeps_number :
  Doc.invoice_info
    (ss_invoice_data
       (run_session (app (json := SexpCodec.codec) Ex.unpriced_ink Ex.evening
                       (Ex.session "shop-1" Ex.doc1) Ex.db1)))
  = Doc.invoice_info Ex.doc1.
Proof.
  refine (proj1 (proj2 (proj2 (rejected_run_keeps_draft (json := SexpCodec.codec)
                                 Ex.unpriced_ink Ex.evening (Ex.session "shop-1" Ex.doc1)
                                 Ex.db1 _)))).
  left. vm_compute. reflexivity.
Defined.

(** X14 at the single row of a blank draft. *)
Lemma buttons_on_blank_draft :
  item_buttons true true (Doc.items Doc.blank) = Doc.items Doc.blank
  /\ item_buttons false true (Doc.items Doc.blank) = Doc.items Doc.blank.
Proof.
  assert (H : Doc.items Doc.blank <> []) by discriminate.
  split.
  - exact (proj1 (proj2 (proj2 (proj2 (item_buttons_keep_a_row true true _ H))))
             eq_refl eq_refl).
  - exact (proj2 (proj2 (proj2 (proj2 (item_buttons_keep_a_row false true _ H))))
             eq_refl eq_refl).
Defined.

Lemma store_after_generate_has_items :
  forall f d, In f (invoices_full (sr_db Ex2.after_generate)) ->
              json_loads (Json := SexpCodec.codec) (full_invoice_json f) = Some d ->
              Doc.items d <> [].
Proof.
  assert (H : forallb
                (fun f => match json_loads (Json := SexpCodec.codec) (full_invoice_json f) with
                          | Some d => match Doc.items d with [] => false | _ => true end
                          | None => true
                          end)
                (invoices_full (sr_db Ex2.after_generate)) = true)
    by (vm_compute; reflexivity).
  intros f d Hf Hd. rewrite forallb_forall in H. specialize (H f Hf).
  rewrite Hd in H. clear Hf Hd.
  destruct (Doc.items d); [discriminate H | intros E; discriminate E].
Qed.

(** X17 at the run that generates the first document of shop-1. *)
Lemma draft_after_generate_has_item_row :
  has_item_row (sr_session Ex2.after_add)
  /\ has_item_row (sr_session Ex2.after_generate).
Proof.
  assert (H0 : has_item_row (sr_session Ex2.after_add)).
  { unfold Ex2.after_add.
    apply (script_keeps_an_item_row (json := SexpCodec.codec)).
    - intros d H. discriminate.
    - intros f d Hf. exfalso. revert Hf. vm_compute. exact (fun x => x). }
  split; [exact H0|].
  unfold Ex2.after_generate.
  apply (script_keeps_an_item_row (json := SexpCodec.codec)); [exact H0|].
  exact store_after_generate_has_items.
Defined.

(** X19 at the run that generates the first document of shop-1: the
    listing of the run holds document 0001. *)
Lemma listing_after_generate :
  sr_listing Ex2.after_generate
  = Some (get_invoices_from_db (sr_db Ex2.after_generate) "shop-1")
  /\ exists r0, In r0 (get_invoices_from_db (sr_db Ex2.after_generate) "shop-1")
                /\ inv_invoice_no r0 = "0001".
Proof.
  assert (H : sr_listing Ex2.after_generate
              = Some (get_invoices_from_db (sr_db Ex2.after_generate) "shop-1"))
    by (vm_compute; reflexivity).
  split; [exact H|].
  unfold Ex2.after_generate in *.
  refine (proj2 (proj2 (proj2 (listing_of_a_run (json := SexpCodec.codec) _ _ _ _ H)))
            "0001" _).
  vm_compute. reflexivity.
Defined.

(** X22 at a database from before the owner id: migrated once, it stays. *)
Lemma init_db_again_on_legacy :
  snd (Schema.init_db Ex2.legacy) = None
  /\ Schema.init_db (fst (Schema.init_db Ex2.legacy))
     = (fst (Schema.init_db Ex2.legacy), None).
Proof.
  assert (H : snd (Schema.init_db Ex2.legacy) = None) by reflexivity.
  split; [exact H|]. exact (init_db_again Ex2.legacy H).
Defined.

